(** * Weekly build scheduler: a shallow embedding of
      [src/lambda/weekly_build_scheduler.py]

    The scheduler walks over a list of Bitbucket repositories, looks at the
    latest pipelines of each one and creates or deletes a weekly scheduled
    pipeline depending on whether the repository is in development.

    Conventions of the embedding.
    - Python exceptions are the [Raise] outcome of [result]; [None] is
      Rocq's [None].
    - The remote services (Bitbucket, the Datadog catalog) and the wall
      clock are a [Remote]: a state type and one transition per endpoint.
      Every request gets a response, and responses follow the schema the
      code reads: a body is either not JSON, an error envelope, or the
      expected payload.
    - Every function of the source that logs or talks to the network is a
      computation in the monad [M]: it threads the remote state and emits
      the [event]s (log lines, HTTP requests, catalog calls) it performs.
    - Strings are [string]; a character is a code point below 256.
    - [SCHEDULE] and [WORKSPACE] are the two module constants the source
      leaves to be configured; they are parameters of the development. *)

From Stdlib Require Import String Ascii List ZArith Lia Bool Arith.
From Stdlib Require Import Permutation.
Import ListNotations.
Local Open Scope string_scope.
Local Open Scope Z_scope.

(** ** Python library functions used by the source *)

Module Py.

(** Exceptions the modelled code can raise. *)
Inductive exn : Type :=
| ValueError    (* datetime.strptime on a string that does not match *)
| TypeError     (* iterating None *)
| IndexError    (* list index out of range *)
| ReError.      (* re.compile on an invalid pattern *)

(** How a call ends.  [OutOfFuel] is not a Python outcome: it marks a run
    of the model whose [while True] loop was given too few iterations. *)
Inductive result (A : Type) : Type :=
| Ok (a : A)
| Raise (e : exn)
| OutOfFuel.
Arguments Ok {A} a.
Arguments Raise {A} e.
Arguments OutOfFuel {A}.

(** [s.replace(old, new)] for a one-character [old]. *)
Fixpoint replace (old : ascii) (new : string) (s : string) : string :=
  match s with
  | EmptyString => EmptyString
  | String c rest =>
      if Ascii.eqb c old then new ++ replace old new rest
      else String c (replace old new rest)
  end.

(** [s.startswith(p)] *)
Fixpoint startswith (p s : string) : bool :=
  match p with
  | EmptyString => true
  | String a p' =>
      match s with
      | String b s' => Ascii.eqb a b && startswith p' s'
      | EmptyString => false
      end
  end.

(** [s.split(sep)] for a one-character [sep]: never empty, the pieces
    between consecutive separators. *)
Fixpoint split (sep : ascii) (s : string) : list string :=
  match s with
  | EmptyString => [EmptyString]
  | String c rest =>
      if Ascii.eqb c sep then EmptyString :: split sep rest
      else match split sep rest with
           | [] => [String c EmptyString]
           | piece :: pieces => String c piece :: pieces
           end
  end.

(** [l[-1]]. *)
Definition last_item {A : Type} (l : list A) : result A :=
  match rev l with
  | [] => Raise IndexError
  | (x :: _)%list => Ok x
  end.

(** [l[i]] for a non-negative [i]. *)
Definition item {A : Type} (l : list A) (i : nat) : result A :=
  match nth_error l i with
  | Some x => Ok x
  | None => Raise IndexError
  end.

(** Truthiness of an optional list: [None] and [[]] are falsy. *)
Definition truthy {A : Type} (l : option (list A)) : bool :=
  match l with
  | Some (_ :: _) => true
  | _ => false
  end.

(** *** [datetime.strptime(s, '%Y-%m-%d %H:%M:%S.%f')]

    CPython turns the format into the regular expression
    [(\d\d\d\d)-(1[0-2]|0[1-9]|[1-9])-(3[0-1]|[1-2]\d|0[1-9]|[1-9]| [1-9])\s+
     (2[0-3]|[0-1]\d|\d):([0-5]\d|\d):(6[0-1]|[0-5]\d|\d)\.([0-9]{1,6})]
    which must match the whole string, then builds the datetime, which
    checks the calendar.  Every numeric field is followed by a character
    that is not a digit, so a field is the longest run of digits at its
    position.  A datetime is a number of microseconds, counted from the
    day before 0001-01-01 (day [n] is the date of proleptic ordinal [n]). *)

Definition is_digit (c : ascii) : bool :=
  let n := nat_of_ascii c in (48 <=? n)%nat && (n <=? 57)%nat.

Definition digit_val (c : ascii) : Z := Z.of_nat (nat_of_ascii c) - 48.

(** [\s] on code points below 256. *)
Definition is_space (c : ascii) : bool :=
  let n := nat_of_ascii c in
  ((9 <=? n)%nat && (n <=? 13)%nat) || ((28 <=? n)%nat && (n <=? 32)%nat)
  || (n =? 133)%nat || (n =? 160)%nat.

Fixpoint span_digits (s : string) : list ascii * string :=
  match s with
  | EmptyString => ([], EmptyString)
  | String c rest =>
      if is_digit c
      then let '(ds, tl) := span_digits rest in (c :: ds, tl)
      else ([], s)
  end.

Definition int_of_digits (ds : list ascii) : Z :=
  fold_left (fun acc c => 10 * acc + digit_val c) ds 0.

(** A numeric field: between [lmin] and [lmax] digits, value in [lo..hi]. *)
Definition field (lmin lmax : nat) (lo hi : Z) (s : string)
  : option (Z * string) :=
  let '(ds, rest) := span_digits s in
  let v := int_of_digits ds in
  if (lmin <=? length ds)%nat && (length ds <=? lmax)%nat
     && (lo <=? v) && (v <=? hi)
  then Some (v, rest) else None.

(** The day of the month also accepts a blank followed by one digit 1-9. *)
Definition field_day (s : string) : option (Z * string) :=
  match s with
  | String " " (String c rest) =>
      if is_digit c && negb (Ascii.eqb c "0")
      then Some (digit_val c, rest) else None
  | _ => field 1 2 1 31 s
  end.

Definition expect (c : ascii) (s : string) : option string :=
  match s with
  | String c' rest => if Ascii.eqb c' c then Some rest else None
  | EmptyString => None
  end.

Fixpoint skip_spaces (s : string) : string :=
  match s with
  | String c rest => if is_space c then skip_spaces rest else s
  | EmptyString => EmptyString
  end.

(** [\s+] *)
Definition spaces1 (s : string) : option string :=
  match s with
  | String c rest => if is_space c then Some (skip_spaces rest) else None
  | EmptyString => None
  end.

(** [%f]: one to six digits up to the end of the string, padded on the
    right with zeros. *)
Definition field_fraction (s : string) : option Z :=
  match span_digits s with
  | (ds, EmptyString) =>
      if (1 <=? length ds)%nat && (length ds <=? 6)%nat
      then Some (int_of_digits ds * 10 ^ Z.of_nat (6 - length ds))
      else None
  | _ => None
  end.

Definition is_leap (y : Z) : bool :=
  (y mod 4 =? 0) && (negb (y mod 100 =? 0) || (y mod 400 =? 0)).

Definition days_in_month (y m : Z) : Z :=
  if m =? 2 then (if is_leap y then 29 else 28)
  else if (m =? 4) || (m =? 6) || (m =? 9) || (m =? 11) then 30
  else 31.

Definition days_before_year (y : Z) : Z :=
  let p := y - 1 in p * 365 + p / 4 - p / 100 + p / 400.

Definition days_before_month (y m : Z) : Z :=
  fold_left (fun acc k => acc + days_in_month y (Z.of_nat k))
            (seq 1 (Z.to_nat m - 1)) 0.

(** [datetime(y, m, d, hh, mm, ss, us)], as microseconds; [None] is the
    constructor's ValueError. *)
Definition datetime (y m d hh mm ss us : Z) : option Z :=
  if (1 <=? y) && (y <=? 9999) && (1 <=? m) && (m <=? 12)
     && (1 <=? d) && (d <=? days_in_month y m)
     && (0 <=? hh) && (hh <=? 23) && (0 <=? mm) && (mm <=? 59)
     && (0 <=? ss) && (ss <=? 59) && (0 <=? us) && (us <=? 999999)
  then
    let ordinal := days_before_year y + days_before_month y m + d in
    Some ((((ordinal * 24 + hh) * 60 + mm) * 60 + ss) * 1000000 + us)
  else None.

Definition obind {A B : Type} (o : option A) (f : A -> option B) : option B :=
  match o with
  | Some a => f a
  | None => None
  end.

Definition strptime (s : string) : option Z :=
  obind (field 4 4 0 9999 s) (fun '(y, s) =>
  obind (expect "-" s) (fun s =>
  obind (field 1 2 1 12 s) (fun '(m, s) =>
  obind (expect "-" s) (fun s =>
  obind (field_day s) (fun '(d, s) =>
  obind (spaces1 s) (fun s =>
  obind (field 1 2 0 23 s) (fun '(hh, s) =>
  obind (expect ":" s) (fun s =>
  obind (field 1 2 0 59 s) (fun '(mm, s) =>
  obind (expect ":" s) (fun s =>
  obind (field 1 2 0 61 s) (fun '(ss, s) =>
  obind (expect "." s) (fun s =>
  obind (field_fraction s) (fun us =>
  datetime y m d hh mm ss us))))))))))))).

(** [timedelta(minutes=n)] and [timedelta(weeks=n)], in microseconds. *)
Definition timedelta_minutes (n : Z) : Z := n * 60 * 1000000.
Definition timedelta_weeks (n : Z) : Z := n * 7 * 24 * 60 * 60 * 1000000.

End Py.
Import Py.

(** ** Data model *)

(** A pipeline of the Bitbucket API, with the two fields the code reads:
    [created_on] and [trigger.name]. *)
Record pipeline : Type := mkPipeline {
  created_on : string;
  trigger_name : string
}.

Record branch : Type := mkBranch {
  name : string
}.

(** A scheduled pipeline: [cron_pattern], [target.selector.pattern] and
    [uuid]. *)
Record schedule : Type := mkSchedule {
  cron_pattern : string;
  target_selector_pattern : string;
  uuid : string
}.

(** A service definition of the catalog: the urls of its
    [attributes.schema.links], in order. *)
Record service : Type := mkService {
  links : list string
}.

(** The body of an HTTP response as [json.loads] sees it. *)
Inductive body (A : Type) : Type :=
| NotJson                          (* json.loads raises JSONDecodeError *)
| ErrorEnvelope (message : string) (* {"error": {"message": ...}} *)
| Values (a : A).                  (* no "error" key; the payload *)
Arguments NotJson {A}.
Arguments ErrorEnvelope {A} message.
Arguments Values {A} a.

Record response (A : Type) : Type := mkResponse {
  text : body A;
  status_code : Z;
  reason : string
}.
Arguments mkResponse {A}.
Arguments text {A}.
Arguments status_code {A}.
Arguments reason {A}.

(** A page of the service catalog: either it carries "errors" (the first
    one is logged) or "data". *)
Inductive catalog_page : Type :=
| CatalogErrors (first : string)
| CatalogData (data : list service).

(** The JSON document [create_schedule] posts. *)
Record schedule_payload : Type := mkPayload {
  selector_pattern : option string;
  ref_name : option string;
  enabled : bool;
  payload_cron_pattern : string
}.

(** ** Observable events *)

Inductive level : Type := DEBUG | INFO | ERROR.
Inductive method : Type := GET | POST | DELETE.

Inductive event : Type :=
| Log (l : level) (msg : string)
| Request (m : method) (url : string)
| ListServiceDefinitions (page_number : nat).

(** A request that changes the remote schedules. *)
Definition is_mutation (e : event) : bool :=
  match e with
  | Request POST _ | Request DELETE _ => true
  | _ => false
  end.

Definition mutations (evs : list event) : list event := filter is_mutation evs.

Definition is_catalog_call (e : event) : bool :=
  match e with
  | ListServiceDefinitions _ => true
  | _ => false
  end.

(** ** The remote world *)

(** The remote services and the clock: a state and one transition per
    endpoint.  [branches] lists all branches of a repository; the filter of
    the request is applied by [get_default_branch]. *)
Record Remote : Type := mkRemote {
  state : Type;
  utcnow : state -> Z * state;
  branches : string -> state -> response (list branch) * state;
  schedules : string -> state -> response (list schedule) * state;
  pipelines : string -> state -> response (list pipeline) * state;
  post_schedule : string -> schedule_payload -> state -> response unit * state;
  delete_schedule_uuid : string -> string -> state -> response unit * state;
  list_service_definitions : nat -> state -> catalog_page * state
}.

(** The [re] module: compiled patterns, [re.compile] ([None] is
    [re.error]) and [pattern.search(s) is not None]. *)
Record Regex : Type := mkRegex {
  compiled : Type;
  compile : string -> option compiled;
  search : compiled -> string -> bool
}.

(** ** The monad of the scheduler *)

Section Monad.
Variable S : Type.

Definition M (A : Type) : Type := S -> result A * S * list event.

Definition ret {A : Type} (a : A) : M A := fun s => (Ok a, s, []).

Definition raise {A : Type} (e : exn) : M A := fun s => (Raise e, s, []).

Definition bind {A B : Type} (m : M A) (f : A -> M B) : M B :=
  fun s =>
    match m s with
    | (Ok a, s1, evs1) =>
        let '(r, s2, evs2) := f a s1 in (r, s2, (evs1 ++ evs2)%list)
    | (Raise e, s1, evs1) => (Raise e, s1, evs1)
    | (OutOfFuel, s1, evs1) => (OutOfFuel, s1, evs1)
    end.

Definition emit (e : event) : M unit := fun s => (Ok tt, s, [e]).

(** A call to the outside: the event, then the transition. *)
Definition call {A : Type} (e : event) (f : S -> A * S) : M A :=
  fun s => let '(a, s') := f s in (Ok a, s', [e]).

Definition lift {A : Type} (r : result A) : M A := fun s => (r, s, []).
End Monad.

Arguments ret {S A} a.
Arguments raise {S A} e.
Arguments bind {S A B} m f.
Arguments emit {S} e.
Arguments call {S A} e f.
Arguments lift {S A} r.

Declare Scope sched_scope.
Delimit Scope sched_scope with sched.
Notation "x <- m ;; k" := (bind m (fun x => k))
  (at level 61, m at next level, right associativity) : sched_scope.
Notation "m ;; k" := (bind m (fun _ => k))
  (at level 61, right associativity) : sched_scope.

(** What a run returns, where it leaves the world, what it did. *)
Definition outcome {S A : Type} (x : result A * S * list event) : result A :=
  fst (fst x).
Definition final {S A : Type} (x : result A * S * list event) : S :=
  snd (fst x).
Definition events {S A : Type} (x : result A * S * list event) : list event :=
  snd x.

(** ** The scheduler *)

Section Scheduler.
Variables SCHEDULE WORKSPACE : string.
Variable srv : Remote.
Variable re : Regex.

Local Open Scope sched_scope.
Local Abbreviation M := (M (state srv)).

Definition logging_debug (msg : string) : M unit := emit (Log DEBUG msg).
Definition logging_info (msg : string) : M unit := emit (Log INFO msg).
Definition logging_error (msg : string) : M unit := emit (Log ERROR msg).

Definition repositories_url (repo_slug : string) : string :=
  "https://api.bitbucket.org/2.0/repositories/" ++ WORKSPACE ++ "/"
    ++ repo_slug.

(** The server side of [q = 'name="main" OR name="master"']: the branches
    of the page whose name is one of those asked for. *)
Definition query_names (names : list string)
    (r : response (list branch)) : response (list branch) :=
  match text r with
  | Values bs =>
      mkResponse
        (Values (filter (fun b => existsb (String.eqb (name b)) names) bs))
        (status_code r) (reason r)
  | _ => r
  end.

Definition get_default_branch (repo_slug : string) : M (option string) :=
  let url := repositories_url repo_slug ++ "/refs/branches/" in
  response <- call (Request GET url)
                (fun s => let '(r, s') := branches srv repo_slug s in
                          (query_names ["main"; "master"] r, s')) ;;
  match text response with
  | ErrorEnvelope message =>
      logging_error ("Failed to get default branch name: " ++ message) ;;
      ret None
  | NotJson =>
      logging_error ("Failed to get default branch name: "
                     ++ reason response) ;;
      ret None
  | Values branches =>
      first <- lift (item branches 0) ;;
      ret (Some (name first))
  end.

Definition get_schedules (repo_slug : string) : M (option (list schedule)) :=
  logging_debug ("Retrieving scheduled pipelines for repo: "
                 ++ repo_slug ++ "...") ;;
  let url := repositories_url repo_slug ++ "/pipelines_config/schedules" in
  response <- call (Request GET url) (schedules srv repo_slug) ;;
  match text response with
  | ErrorEnvelope message =>
      logging_error ("Failed to retrieve scheduled pipelines: "
                     ++ message) ;;
      ret None
  | NotJson =>
      logging_error ("Failed to retrieve scheduled pipelines: "
                     ++ reason response) ;;
      ret None
  | Values schedules => ret (Some schedules)
  end.

(** [schedule['cron_pattern'] == SCHEDULE and
     schedule['target']['selector']['pattern'] == default_branch];
    a string is never equal to [None]. *)
Definition targets_default (default_branch : option string)
    (schedule : schedule) : bool :=
  (cron_pattern schedule =? SCHEDULE)%string
  && match default_branch with
     | Some b => (target_selector_pattern schedule =? b)%string
     | None => false
     end.

(** The [for] loop of [delete_schedule].  The result tells whether the
    function returned from inside the loop ([true]) or the loop ended,
    by [break] or by exhaustion ([false]). *)
Fixpoint delete_schedule_loop (repo_slug : string)
    (default_branch : option string) (schedules : list schedule) : M bool :=
  match schedules with
  | []%list => ret false
  | (schedule :: rest)%list =>
      if targets_default default_branch schedule then
        let schedule_uuid := uuid schedule in
        let url := repositories_url repo_slug
                   ++ "/pipelines_config/schedules/" ++ schedule_uuid in
        response <- call (Request DELETE url)
                      (delete_schedule_uuid srv repo_slug schedule_uuid) ;;
        match text response with
        | ErrorEnvelope message =>
            logging_error ("Failed to delete scheduled pipeline: "
                           ++ message) ;;
            ret true
        | NotJson =>
            if negb (status_code response =? 204) then
              logging_error ("Failed to delete scheduled pipeline: "
                             ++ reason response) ;;
              ret true
            else ret false
        | Values _ => ret false
        end
      else delete_schedule_loop repo_slug default_branch rest
  end.

Definition delete_schedule (repo_slug : string) (dry_run : bool) : M unit :=
  logging_debug ("Deleting scheduled pipeline for repo: "
                 ++ repo_slug ++ "...") ;;
  default_branch <- get_default_branch repo_slug ;;
  schedules <- get_schedules repo_slug ;;
  match schedules with
  | None =>
      if dry_run then logging_error ""
      else logging_error "Failed to delete scheduled pipeline."
  | Some schedules =>
      if dry_run then
        logging_info ("Eligible for Schedule Deletion: " ++ repo_slug)
      else
        returned <- delete_schedule_loop repo_slug default_branch
                      schedules ;;
        if returned then ret tt
        else logging_debug ("Scheduled pipeline deleted for repo: "
                            ++ repo_slug ++ ".")
  end.

(** [for schedule in schedules] when [schedules] may be [None]. *)
Definition iter {A : Type} (l : option (list A)) : result (list A) :=
  match l with
  | Some l => Ok l
  | None => Raise TypeError
  end.

(** The [for] loop of [create_schedule]: [true] when it returned from
    inside the loop, on a schedule that already exists. *)
Fixpoint create_schedule_loop (default_branch : option string)
    (schedules : list schedule) : bool :=
  match schedules with
  | []%list => false
  | (schedule :: rest)%list =>
      if targets_default default_branch schedule then true
      else create_schedule_loop default_branch rest
  end.

Definition create_schedule (repo_slug : string) (dry_run : bool) : M unit :=
  logging_debug ("Creating scheduled pipeline for repo: "
                 ++ repo_slug ++ "...") ;;
  default_branch <- get_default_branch repo_slug ;;
  schedules <- get_schedules repo_slug ;;
  schedules <- lift (iter schedules) ;;
  if create_schedule_loop default_branch schedules then
    logging_error
      "Failed to create scheduled pipeline: this schedule already exists."
  else if dry_run then
    logging_info ("Eligible for Scheduling: " ++ repo_slug)
  else
    let url := repositories_url repo_slug ++ "/pipelines_config/schedules" in
    let payload := mkPayload default_branch default_branch true SCHEDULE in
    response <- call (Request POST url)
                  (post_schedule srv repo_slug payload) ;;
    match text response with
    | ErrorEnvelope message =>
        logging_error ("Failed to create scheduled pipeline: " ++ message)
    | NotJson =>
        logging_error ("Failed to create scheduled pipeline: "
                       ++ reason response)
    | Values _ =>
        logging_debug ("Scheduled pipeline created for repo: "
                       ++ repo_slug ++ ".")
    end.

(** The window of recent builds: two minutes under [test], else a week. *)
Definition recent (test : bool) : Z :=
  if test then timedelta_minutes 2 else timedelta_weeks 1.

(** [pipeline["created_on"].replace("T", " ").replace("Z", "")] *)
Definition creation_str (pipeline : pipeline) : string :=
  replace "Z" "" (replace "T" " " (created_on pipeline)).

Definition creation_date (pipeline : pipeline) : option Z :=
  strptime (creation_str pipeline).

(** [datetime.now(tz=timezone.utc)], through [strftime] and [strptime]:
    the reading of the clock, in microseconds. *)
Definition datetime_now : M Z :=
  fun s => let '(t, s') := utcnow srv s in (Ok t, s', []%list).

(** The [for] loop of [check_development_status], with its counter. *)
Fixpoint check_development_status_loop (test : bool)
    (pipelines : list pipeline) (recent_pipelines : nat) : M bool :=
  match pipelines with
  | []%list =>
      logging_debug "This repo is not in development" ;;
      ret false
  | (pipeline :: rest)%list =>
      creation_date <- lift (match creation_date pipeline with
                             | Some d => Ok d
                             | None => Raise ValueError
                             end) ;;
      today <- datetime_now ;;
      if today - creation_date <=? recent test then
        let recent_pipelines := S recent_pipelines in
        if negb (trigger_name pipeline =? "SCHEDULE")%string
           || (1 <? recent_pipelines)%nat
        then
          logging_debug "This repo is in development." ;;
          ret true
        else check_development_status_loop test rest recent_pipelines
      else check_development_status_loop test rest recent_pipelines
  end.

Definition check_development_status (pipelines : list pipeline)
    (test : bool) : M bool :=
  logging_debug "Checking development status..." ;;
  check_development_status_loop test pipelines 0.

Definition get_latest_pipelines (repo_slug : string)
  : M (option (list pipeline)) :=
  logging_debug ("Retrieving latest pipelines for repo: "
                 ++ repo_slug ++ "...") ;;
  let url := repositories_url repo_slug ++ "/pipelines" in
  response <- call (Request GET url) (pipelines srv repo_slug) ;;
  match text response with
  | ErrorEnvelope message =>
      logging_error ("Failed to get latest pipelines: " ++ message) ;;
      ret None
  | NotJson =>
      logging_error ("Failed to get latest pipelines: "
                     ++ reason response) ;;
      ret None
  | Values pipelines => ret (Some pipelines)
  end.

Fixpoint match_override (repo_slug : string) (override : list string)
  : result bool :=
  match override with
  | []%list => Ok false
  | (pattern :: rest)%list =>
      match compile re pattern with
      | None => Raise ReError
      | Some pattern =>
          if search re pattern repo_slug then Ok true
          else match_override repo_slug rest
      end
  end.

(** [service['attributes']['schema']['links'][-1]['url'].split("/")[4]] *)
Definition url_component_4 (service : service) : result string :=
  match last_item (links service) with
  | Ok url => item (split "/" url) 4
  | Raise e => Raise e
  | OutOfFuel => OutOfFuel
  end.

(** The [for service in response['data']] loop of
    [get_active_services]. *)
Fixpoint collect_services (data : list service) (services : list string)
  : result (list string) :=
  match data with
  | []%list => Ok services
  | (service :: rest)%list =>
      match url_component_4 service with
      | Ok component =>
          if negb (component =? "workspace")%string
          then collect_services rest (services ++ [component])%list
          else collect_services rest services
      | Raise e => Raise e
      | OutOfFuel => OutOfFuel
      end
  end.

(** The [while True] loop of [get_active_services], for at most [fuel]
    pages. *)
Fixpoint get_active_services_loop (fuel : nat) (page : nat)
    (services : list string) : M (list string) :=
  match fuel with
  | O => lift OutOfFuel
  | S fuel =>
      response <- call (ListServiceDefinitions page)
                    (list_service_definitions srv page) ;;
      match response with
      | CatalogErrors first =>
          logging_error first ;;
          ret services
      | CatalogData data =>
          services <- lift (collect_services data services) ;;
          match data with
          | []%list => ret services
          | _ => get_active_services_loop fuel (S page) services
          end
      end
  end.

Definition get_active_services (fuel : nat) : M (list string) :=
  logging_info "Retrieving active services..." ;;
  get_active_services_loop fuel 0 []%list.

(** Lines 377-380 of [process_services]: the repositories to process. *)
Definition active_services (fuel : nat)
    (repositories : option (list string)) : M (list string) :=
  match repositories with
  | Some (r :: rs)%list => ret (r :: rs)%list
  | _ => get_active_services fuel
  end.

(** The body of the [for] loop of [process_services]. *)
Definition process_service (override : option (list string))
    (dry_run test : bool) (service : string) : M unit :=
  logging_info ("Processing service: " ++ service ++ "...") ;;
  overridden <- match override with
                | Some (p :: ps)%list =>
                    lift (match_override service (p :: ps)%list)
                | _ => ret false
                end ;;
  if overridden then
    logging_info ("Bitbucket repo for service " ++ service
                  ++ " overridden. Skipping...")
  else
    pipelines <- get_latest_pipelines service ;;
    match pipelines with
    | None | Some []%list =>
        logging_info ("No pipelines found in repo for service: "
                      ++ service ++ ". Skipping...")
    | Some pipelines =>
        in_development <- check_development_status pipelines test ;;
        if negb in_development then create_schedule service dry_run
        else delete_schedule service dry_run
    end.

Fixpoint process_services_loop (override : option (list string))
    (dry_run test : bool) (active_services : list string) : M unit :=
  match active_services with
  | []%list => ret tt
  | (service :: rest)%list =>
      process_service override dry_run test service ;;
      process_services_loop override dry_run test rest
  end.

Definition process_services (fuel : nat)
    (repositories override : option (list string))
    (dry_run test : bool) : M unit :=
  logging_info "Processing services..." ;;
  active_services <- active_services fuel repositories ;;
  process_services_loop override dry_run test active_services ;;
  logging_info "Services processed.".

End Scheduler.

(** ** What the activity classifier is checked against *)

Section ClassifierSpec.
Variable srv : Remote.

(** The readings of [n] successive calls of the clock from state [s]. *)
Fixpoint readings (s : state srv) (n : nat) : list Z :=
  match n with
  | O => []
  | Datatypes.S n => let '(t, s') := utcnow srv s in t :: readings s' n
  end.

(** Each pipeline of [E] with the instant at which the loop looks at
    it: one clock reading per iteration. *)
Definition examined (s : state srv) (E : list pipeline)
  : list (Z * pipeline) :=
  combine (readings s (length E)) E.

(** [today - creation_date <= recent] *)
Definition within (test : bool) (x : Z * pipeline) : bool :=
  match creation_date (snd x) with
  | Some d => fst x - d <=? recent test
  | None => false
  end.

Definition count_recent (test : bool) (xs : list (Z * pipeline)) : nat :=
  length (filter (within test) xs).

Definition user_triggered (test : bool) (x : Z * pipeline) : bool :=
  within test x && negb (trigger_name (snd x) =? "SCHEDULE")%string.

(** The verdict of the loop entered with counter [n]. *)
Definition verdict_from (n : nat) (test : bool)
    (xs : list (Z * pipeline)) : bool :=
  existsb (user_triggered test) xs
  || ((1 <=? count_recent test xs)%nat
      && (2 <=? n + count_recent test xs)%nat).

Definition well_formed (p : pipeline) : Prop := creation_date p <> None.

(** The decimal digit of [n] of weight one. *)
Definition digit_char (n : Z) : ascii :=
  ascii_of_nat (48 + Z.to_nat (n mod 10)).

(** The last [width] decimal digits of [n], zeros included. *)
Fixpoint zero_padded (width : nat) (n : Z) : string :=
  match width with
  | O => EmptyString
  | Datatypes.S w =>
      String (digit_char (n / 10 ^ Z.of_nat w)) (zero_padded w n)
  end.

(** The characters of [zero_padded w n]. *)
Fixpoint digits (w : nat) (n : Z) : list ascii :=
  match w with
  | O => []
  | Datatypes.S w => digit_char (n / 10 ^ Z.of_nat w) :: digits w n
  end.

(** A timestamp written [YYYY-MM-DDTHH:MM:SS.ffffffZ]. *)
Definition timestamp (y m d hh mm ss us : Z) : string :=
  zero_padded 4 y ++ "-" ++ zero_padded 2 m ++ "-" ++ zero_padded 2 d
  ++ "T" ++ zero_padded 2 hh ++ ":" ++ zero_padded 2 mm ++ ":"
  ++ zero_padded 2 ss ++ "." ++ zero_padded 6 us ++ "Z".

(** A pipeline whose [created_on] has that form and names a moment of
    the calendar. *)
Definition exact_form (p : pipeline) : Prop :=
  exists y m d hh mm ss us,
    created_on p = timestamp y m d hh mm ss us
    /\ datetime y m d hh mm ss us <> None.

End ClassifierSpec.

(** ** What the reconciler is checked against *)

Section ReconcilerSpec.
Variables SCHEDULE WORKSPACE : string.
Variable srv : Remote.

(** The first log line of [create_schedule] and of [delete_schedule]:
    the trace of an invocation. *)
Definition create_invoked (repo_slug : string) : event :=
  Log DEBUG ("Creating scheduled pipeline for repo: " ++ repo_slug ++ "...").

Definition delete_invoked (repo_slug : string) : event :=
  Log DEBUG ("Deleting scheduled pipeline for repo: " ++ repo_slug ++ "...").

Definition eligible_for_scheduling (repo_slug : string) : event :=
  Log INFO ("Eligible for Scheduling: " ++ repo_slug).

Definition already_exists : event :=
  Log ERROR
    "Failed to create scheduled pipeline: this schedule already exists.".

(** The request that deletes a schedule of a repository. *)
Definition delete_request (repo_slug : string) (sch : schedule) : event :=
  Request DELETE (repositories_url WORKSPACE repo_slug
                  ++ "/pipelines_config/schedules/" ++ uuid sch).

(** The verdict of the override filter on a repository, as
    [process_services] asks for it: no list, or an empty one, excludes
    nothing. *)
Definition excluded (re : Regex) (override : option (list string))
    (service : string) : result bool :=
  match override with
  | Some (p :: ps)%list => match_override re service (p :: ps)%list
  | _ => Ok false
  end.

(** The pages of data the catalog hands out, from [page] on and for at
    most [fuel] calls, up to the first page that is empty or in error. *)
Fixpoint pages_seen (fuel page : nat) (s : state srv)
  : list (list service) :=
  match fuel with
  | O => []
  | Datatypes.S fuel =>
      match list_service_definitions srv page s with
      | (CatalogData (sv :: data), s') =>
          (sv :: data) :: pages_seen fuel (Datatypes.S page) s'
      | _ => []
      end
  end%list.

(** The path segments the entries yield, in order. *)
Fixpoint segments (data : list service) : list string :=
  match data with
  | [] => []
  | sv :: rest =>
      match url_component_4 sv with
      | Ok c => c :: segments rest
      | _ => segments rest
      end
  end%list.

Definition not_workspace (c : string) : bool :=
  negb (c =? "workspace")%string.

(** The calls to the catalog among the events of a run. *)
Definition catalog_calls (evs : list event) : list event :=
  filter is_catalog_call evs.

(** A pattern [re.compile] accepts. *)
Definition compiles (re : Regex) (p : string) : Prop :=
  compile re p <> None.
End ReconcilerSpec.

(** ** A small concrete world *)

Module Demo.

(** The clock as a function of the number of readings made so far; one
    fixed answer per endpoint and repository. *)
Record world : Type := mkWorld {
  clock : nat -> Z;
  repo_branches : string -> response (list branch);
  repo_schedules : string -> response (list schedule);
  repo_pipelines : string -> response (list pipeline);
  post_reply : response unit;
  delete_reply : response unit;
  catalog : nat -> catalog_page
}.

Definition remote (w : world) : Remote :=
  {| state := nat;
     utcnow := fun n => (clock w n, Datatypes.S n);
     branches := fun slug n => (repo_branches w slug, n);
     schedules := fun slug n => (repo_schedules w slug, n);
     pipelines := fun slug n => (repo_pipelines w slug, n);
     post_schedule := fun _ _ n => (post_reply w, n);
     delete_schedule_uuid := fun _ _ n => (delete_reply w, n);
     list_service_definitions := fun page n => (catalog w page, n) |}.

(** Patterns without metacharacters: the search is for a substring;
    ["("] does not compile. *)
Definition literal : Regex :=
  {| compiled := string;
     compile := fun p => if (p =? "(")%string then None else Some p;
     search := fun p s => match index 0 p s with
                          | Some _ => true
                          | None => false
                          end |}.

Definition ok {A : Type} (a : A) : response A := mkResponse (Values a) 200 "OK".
Definition no_content : response unit := mkResponse NotJson 204 "No Content".
Definition failed {A : Type} (msg : string) : response A :=
  mkResponse (ErrorEnvelope msg) 404 "Not Found".

Definition cron : string := "0 0 13 ? * 7 *".
Definition workspace : string := "acme".

(** 2024-01-08 00:00:00 UTC, in microseconds. *)
Definition monday : Z := 63840355200000000.

Definition build (created trigger : string) : pipeline :=
  mkPipeline created trigger.

Definition scheduled_yesterday : pipeline :=
  build "2024-01-07T13:00:00.000000Z" "SCHEDULE".
Definition scheduled_sunday : pipeline :=
  build "2024-01-06T13:00:00.000000Z" "SCHEDULE".
Definition push_yesterday : pipeline :=
  build "2024-01-07T09:30:00.250000Z" "PUSH".
Definition push_just_now : pipeline :=
  build "2024-01-07T23:59:00.000000Z" "PUSH".
Definition no_fraction : pipeline :=
  build "2024-01-07T09:30:00Z" "PUSH".
Definition other_format : pipeline :=
  build "07/01/2024 09:30:00" "PUSH".

Definition weekly (branch_ id : string) : schedule :=
  mkSchedule cron branch_ id.

(** A world with a frozen clock where every repository has a [main]
    branch, no schedule, and one scheduled build yesterday. *)
Definition quiet : world :=
  {| clock := fun _ => monday;
     repo_branches := fun _ => ok [mkBranch "main"];
     repo_schedules := fun _ => ok [];
     repo_pipelines := fun _ => ok [scheduled_yesterday];
     post_reply := ok tt;
     delete_reply := no_content;
     catalog := fun page =>
       match page with
       | O => CatalogData
                [mkService ["https://bitbucket.org/acme/svc-a"];
                 mkService ["https://docs"; "https://bitbucket.org/acme/workspace"]]
       | Datatypes.S O =>
           CatalogData [mkService ["https://bitbucket.org/acme/svc-b"]]
       | _ => CatalogData []
       end |}.


(** Listing the schedules fails with an error envelope. *)
Definition unlisted_schedules : world :=
  {| clock := clock quiet;
     repo_branches := repo_branches quiet;
     repo_schedules := fun _ => failed "Repository not found";
     repo_pipelines := repo_pipelines quiet;
     post_reply := post_reply quiet;
     delete_reply := delete_reply quiet;
     catalog := catalog quiet |}.

(** Repositories whose only branch is [develop], pushed to yesterday
    and without any schedule. *)
Definition no_default_branch : world :=
  {| clock := clock quiet;
     repo_branches := fun _ => ok [mkBranch "develop"];
     repo_schedules := fun _ => ok [];
     repo_pipelines := fun _ => ok [push_yesterday];
     post_reply := post_reply quiet;
     delete_reply := delete_reply quiet;
     catalog := catalog quiet |}.

(** Repositories that already have the weekly schedule on [main]. *)
Definition already_scheduled : world :=
  {| clock := clock quiet;
     repo_branches := repo_branches quiet;
     repo_schedules := fun _ => ok [weekly "main" "{7d1f}"];
     repo_pipelines := repo_pipelines quiet;
     post_reply := post_reply quiet;
     delete_reply := delete_reply quiet;
     catalog := catalog quiet |}.

(** Repositories in development, with the weekly schedule twice on
    [master] after one on another branch. *)
Definition busy : world :=
  {| clock := clock quiet;
     repo_branches := fun _ => ok [mkBranch "develop"; mkBranch "master"];
     repo_schedules := fun _ =>
       ok [weekly "develop" "{0a}"; weekly "master" "{1b}";
           weekly "master" "{2c}"];
     repo_pipelines := fun slug =>
       if (slug =? "svc-c")%string then failed "Not found"
       else if (slug =? "svc-e")%string then ok []
       else ok [push_yesterday; scheduled_sunday];
     post_reply := post_reply quiet;
     delete_reply := delete_reply quiet;
     catalog := catalog quiet |}.

(** Listing the branches fails, listing the schedules works. *)
Definition unresolved_branch : world :=
  {| clock := clock quiet;
     repo_branches := fun _ => failed "Repository not found";
     repo_schedules := fun _ => ok [weekly "main" "{7d1f}"];
     repo_pipelines := repo_pipelines quiet;
     post_reply := post_reply quiet;
     delete_reply := delete_reply quiet;
     catalog := catalog quiet |}.

(** The catalog answers every page with the same entry. *)
Definition endless : world :=
  {| clock := clock quiet;
     repo_branches := repo_branches quiet;
     repo_schedules := repo_schedules quiet;
     repo_pipelines := repo_pipelines quiet;
     post_reply := post_reply quiet;
     delete_reply := delete_reply quiet;
     catalog := fun _ =>
       CatalogData [mkService ["https://bitbucket.org/acme/svc-a"]] |}.

(** The catalog is down, or lists an entry without a repository. *)
Definition catalog_down : world :=
  {| clock := clock quiet;
     repo_branches := repo_branches quiet;
     repo_schedules := repo_schedules quiet;
     repo_pipelines := repo_pipelines quiet;
     post_reply := post_reply quiet;
     delete_reply := delete_reply quiet;
     catalog := fun _ => CatalogErrors "Forbidden" |}.

Definition catalog_without_link : world :=
  {| clock := clock quiet;
     repo_branches := repo_branches quiet;
     repo_schedules := repo_schedules quiet;
     repo_pipelines := repo_pipelines quiet;
     post_reply := post_reply quiet;
     delete_reply := delete_reply quiet;
     catalog := fun _ =>
       CatalogData [mkService ["https://bitbucket.org/acme/svc-a"];
                    mkService ["https://example.org/docs"]] |}.

End Demo.

(** The entry log lines of [create_schedule] and [delete_schedule], for
    any repository. *)
Definition is_create_entry (e : event) : bool :=
  match e with
  | Log DEBUG msg => startswith "Creating scheduled pipeline for repo: " msg
  | _ => false
  end.

Definition is_delete_entry (e : event) : bool :=
  match e with
  | Log DEBUG msg => startswith "Deleting scheduled pipeline for repo: " msg
  | _ => false
  end.

(** An event that neither changes the remote schedules nor enters
    [create_schedule] or [delete_schedule]. *)
Definition passive (e : event) : bool :=
  negb (is_mutation e) && negb (is_create_entry e) && negb (is_delete_entry e).

(** ** More of the observable behaviour *)

(** A request to Bitbucket, of any method. *)
Definition is_request (e : event) : bool :=
  match e with
  | Request _ _ => true
  | _ => false
  end.

Definition requests (evs : list event) : list event := filter is_request evs.

Definition is_error_log (e : event) : bool :=
  match e with
  | Log ERROR _ => true
  | _ => false
  end.

(** The state of the world after [k] readings of the clock. *)
Fixpoint advance (srv : Remote) (s : state srv) (k : nat) : state srv :=
  match k with
  | O => s
  | Datatypes.S k => advance srv (snd (utcnow srv s)) k
  end.

(** The two closing lines of [check_development_status]. *)
Definition in_development_log : event :=
  Log DEBUG "This repo is in development.".
Definition not_in_development_log : event :=
  Log DEBUG "This repo is not in development".

(** The closing line of [delete_schedule] and the report of its dry
    run. *)
Definition deleted_log (repo_slug : string) : event :=
  Log DEBUG ("Scheduled pipeline deleted for repo: " ++ repo_slug ++ ".").
Definition eligible_for_deletion (repo_slug : string) : event :=
  Log INFO ("Eligible for Schedule Deletion: " ++ repo_slug).

(** A response to DELETE that [delete_schedule] takes for a failure: an
    error envelope, or a body that is not JSON with a status other than
    204. *)
Definition delete_failed (r : response unit) : bool :=
  match text r with
  | ErrorEnvelope _ => true
  | NotJson => negb (status_code r =? 204)
  | Values _ => false
  end.

(** The request that creates a schedule in a repository. *)
Definition post_request (WORKSPACE repo_slug : string) : event :=
  Request POST (repositories_url WORKSPACE repo_slug
                ++ "/pipelines_config/schedules").

(** A string without any "/". *)
Fixpoint no_slash (s : string) : bool :=
  match s with
  | EmptyString => true
  | String c rest => negb (Ascii.eqb c "/") && no_slash rest
  end.

(** A catalog entry from which no repository can be read: it has no
    link, or its last link has fewer than five pieces between "/". *)
Definition malformed (sv : service) : bool :=
  match rev (links sv) with
  | [] => true
  | url :: _ => (length (split "/" url) <=? 4)%nat
  end.

(** ** The Lambda entry point *)

(** The event of an invocation, with the five keys [lambda_handler]
    reads; [None] is a missing key. *)
Record invocation : Type := mkInvocation {
  event_repositories : option (list string);
  event_override : option (list string);
  event_dry_run : option bool;
  event_verbose : option bool;
  event_test : option bool
}.

(** [event.get(key, default)] *)
Definition get_or {A : Type} (o : option A) (default : A) : A :=
  match o with
  | Some a => a
  | None => default
  end.

(** The level of the root logger: DEBUG lines are emitted only under
    [verbose]. *)
Definition emitted (verbose : bool) (e : event) : bool :=
  match e with
  | Log DEBUG _ => verbose
  | _ => true
  end.

Section Handler.
Variables SCHEDULE WORKSPACE : string.
Variable srv : Remote.
Variable re : Regex.

Definition lambda_handler (fuel : nat) (event : invocation)
  : M (state srv) unit :=
  let repositories := event_repositories event in
  let override := event_override event in
  let dry_run := get_or (event_dry_run event) false in
  let verbose := get_or (event_verbose event) false in
  let test := get_or (event_test event) false in
  fun s =>
    let '(r, s', evs) :=
      process_services SCHEDULE WORKSPACE srv re fuel repositories override
        dry_run test s in
    (r, s', filter (emitted verbose) evs).
End Handler.

(** ** Build executions *)










(** ** The library functions on examples *)

Example strptime_ok :
  strptime "2024-01-01 00:00:00.5" = Some 63839750400500000.
Proof. reflexivity. Qed.

Example strptime_loose :
  strptime "2024-1- 1   0:0:0.000001" = Some 63839750400000001.
Proof. reflexivity. Qed.

Example strptime_no_fraction : strptime "2024-01-01 00:00:00" = None.
Proof. reflexivity. Qed.

Example strptime_calendar : strptime "2023-02-29 00:00:00.5" = None.
Proof. reflexivity. Qed.

Example split_url :
  split "/" "https://bitbucket.org/workspace/repo"
  = ["https:"; ""; "bitbucket.org"; "workspace"; "repo"].
Proof. reflexivity. Qed.

(** ** Timestamps of the exact form parse *)

Lemma digit_char_cases (n : Z) :
  exists k : nat, (k < 10)%nat /\ digit_char n = ascii_of_nat (48 + k)
                  /\ n mod 10 = Z.of_nat k.
Proof.
  exists (Z.to_nat (n mod 10)).
  assert (H : 0 <= n mod 10 < 10) by (apply Z.mod_pos_bound; lia).
  split; [lia |]. split; [reflexivity | lia].
Qed.

Ltac digit_cases n :=
  let k := fresh "k" in
  let Hk := fresh "Hk" in
  let Hc := fresh "Hc" in
  let Hm := fresh "Hm" in
  destruct (digit_char_cases n) as [k [Hk [Hc Hm]]];
  rewrite Hc; clear Hc;
  do 10 (destruct k as [| k]; [try reflexivity |]);
  try (exfalso; lia).

Lemma is_digit_digit_char (n : Z) : is_digit (digit_char n) = true.
Proof. digit_cases n. Qed.

Lemma is_space_digit_char (n : Z) : is_space (digit_char n) = false.
Proof. digit_cases n. Qed.

Lemma digit_val_digit_char (n : Z) : digit_val (digit_char n) = n mod 10.
Proof.
  destruct (digit_char_cases n) as [k [Hk [Hc Hm]]].
  rewrite Hc, Hm. clear Hc Hm.
  do 10 (destruct k as [| k]; [reflexivity |]). exfalso; lia.
Qed.

Lemma replace_digit_char (old : ascii) (new : string) (n : Z) (s : string) :
  is_digit old = false ->
  replace old new (String (digit_char n) s)
  = String (digit_char n) (replace old new s).
Proof.
  intros Hold. cbn [replace].
  destruct (Ascii.eqb (digit_char n) old) eqn:He; [| reflexivity].
  apply Ascii.eqb_eq in He. rewrite <- He, is_digit_digit_char in Hold.
  discriminate.
Qed.

Lemma replace_zero_padded (old : ascii) (new : string) (w : nat) (n : Z)
    (s : string) :
  is_digit old = false ->
  replace old new (zero_padded w n ++ s)
  = zero_padded w n ++ replace old new s.
Proof.
  intros Hold. induction w as [| w IH]; cbn [zero_padded append].
  - reflexivity.
  - rewrite replace_digit_char by exact Hold. now rewrite IH.
Qed.

Lemma digits_length (w : nat) (n : Z) : length (digits w n) = w.
Proof. induction w as [| w IH]; cbn [digits length]; congruence. Qed.

Lemma span_digits_zero_padded (w : nat) (n : Z) (s : string) :
  span_digits s = ([], s) ->
  span_digits (zero_padded w n ++ s) = (digits w n, s).
Proof.
  intros Hs. induction w as [| w IH]; cbn [zero_padded append digits].
  - exact Hs.
  - cbn [span_digits]. rewrite is_digit_digit_char, IH. reflexivity.
Qed.

Lemma fold_digits (w : nat) (n acc : Z) :
  0 <= n ->
  fold_left (fun a c => 10 * a + digit_val c) (digits w n) acc
  = acc * 10 ^ Z.of_nat w + n mod 10 ^ Z.of_nat w.
Proof.
  intros Hn. revert acc.
  induction w as [| w IH]; intros acc; cbn [digits fold_left].
  - cbn. rewrite Z.mod_1_r. lia.
  - rewrite IH, digit_val_digit_char.
    rewrite Nat2Z.inj_succ, Z.pow_succ_r by lia.
    set (b := 10 ^ Z.of_nat w).
    assert (Hb : 0 < b) by (apply Z.pow_pos_nonneg; lia).
    rewrite (Z.mul_comm 10 b), (Z.rem_mul_r n b 10) by lia.
    ring.
Qed.

Lemma int_of_digits_small (w : nat) (n : Z) :
  0 <= n < 10 ^ Z.of_nat w -> int_of_digits (digits w n) = n.
Proof.
  intros Hn. unfold int_of_digits. rewrite fold_digits by lia.
  rewrite Z.mod_small by lia. lia.
Qed.

(** A numeric field reads a zero-padded number back. *)
Lemma field_zero_padded (lmin lmax w : nat) (lo hi n : Z) (s : string) :
  span_digits s = ([], s) ->
  (lmin <= w <= lmax)%nat ->
  0 <= n < 10 ^ Z.of_nat w ->
  lo <= n <= hi ->
  field lmin lmax lo hi (zero_padded w n ++ s) = Some (n, s).
Proof.
  intros Hs Hw Hn Hr. unfold field.
  rewrite span_digits_zero_padded by exact Hs.
  rewrite digits_length, int_of_digits_small by exact Hn.
  replace (lmin <=? w)%nat with true by (symmetry; apply Nat.leb_le; lia).
  replace (w <=? lmax)%nat with true by (symmetry; apply Nat.leb_le; lia).
  replace (lo <=? n) with true by (symmetry; apply Z.leb_le; lia).
  replace (n <=? hi) with true by (symmetry; apply Z.leb_le; lia).
  reflexivity.
Qed.

Lemma field_day_zero_padded (n : Z) (s : string) :
  span_digits s = ([], s) ->
  1 <= n <= 31 ->
  field_day (zero_padded 2 n ++ s) = Some (n, s).
Proof.
  intros Hs Hn.
  assert (Hf : field_day (zero_padded 2 n ++ s)
               = field 1 2 1 31 (zero_padded 2 n ++ s)).
  { cbn [zero_padded append].
    generalize (String (digit_char (n / 10 ^ Z.of_nat 0)) (EmptyString ++ s)).
    intros tl. digit_cases (n / 10 ^ Z.of_nat 1). }
  rewrite Hf. apply field_zero_padded; [exact Hs | lia | cbn; lia | lia].
Qed.

Lemma skip_spaces_zero_padded (n : Z) (s : string) :
  skip_spaces (zero_padded 2 n ++ s) = zero_padded 2 n ++ s.
Proof.
  cbn [zero_padded append skip_spaces]. now rewrite is_space_digit_char.
Qed.

Lemma field_fraction_zero_padded (n : Z) :
  0 <= n <= 999999 ->
  field_fraction (zero_padded 6 n ++ "") = Some n.
Proof.
  intros Hn. unfold field_fraction.
  rewrite span_digits_zero_padded by reflexivity.
  rewrite digits_length, int_of_digits_small by (cbn; lia).
  cbn. f_equal. lia.
Qed.

Lemma datetime_bounds (y m d hh mm ss us : Z) :
  datetime y m d hh mm ss us <> None ->
  (1 <= y <= 9999 /\ 1 <= m <= 12 /\ 1 <= d <= 31)
  /\ (0 <= hh <= 23 /\ 0 <= mm <= 59 /\ 0 <= ss <= 59)
  /\ 0 <= us <= 999999.
Proof.
  unfold datetime.
  destruct (_ && _) eqn:H; [intros _ | congruence].
  repeat (apply andb_true_iff in H; destruct H as [H ?]).
  repeat match goal with
         | H : (_ <=? _) = true |- _ => apply Z.leb_le in H
         end.
  assert (days_in_month y m <= 31).
  { unfold days_in_month.
    destruct (m =? 2); [destruct (is_leap y); lia |].
    destruct (_ || _); lia. }
  lia.
Qed.

(** The parser reads a timestamp of the exact form as the moment it
    names. *)
Lemma creation_date_timestamp (y m d hh mm ss us : Z) (trigger : string) :
  datetime y m d hh mm ss us <> None ->
  creation_date (mkPipeline (timestamp y m d hh mm ss us) trigger)
  = datetime y m d hh mm ss us.
Proof.
  intros Hdt.
  destruct (datetime_bounds _ _ _ _ _ _ _ Hdt)
    as [[Hy [Hm Hd]] [[Hhh [Hmm Hss]] Hus]].
  unfold creation_date, creation_str, timestamp. cbn [created_on].
  assert (HT : is_digit "T" = false) by reflexivity.
  assert (HZ : is_digit "Z" = false) by reflexivity.
  repeat (rewrite (replace_zero_padded "T") by exact HT;
          cbn [replace append Ascii.eqb Bool.eqb]).
  repeat (rewrite (replace_zero_padded "Z") by exact HZ;
          cbn [replace append Ascii.eqb Bool.eqb]).
  unfold strptime.
  rewrite field_zero_padded by (try reflexivity; cbn; lia).
  cbn [obind expect Ascii.eqb Bool.eqb].
  rewrite field_zero_padded by (try reflexivity; cbn; lia).
  cbn [obind expect Ascii.eqb Bool.eqb].
  rewrite field_day_zero_padded by (try reflexivity; lia).
  cbn [obind spaces1]. replace (is_space " ") with true by reflexivity.
  rewrite skip_spaces_zero_padded.
  cbn [obind].
  rewrite field_zero_padded by (try reflexivity; cbn; lia).
  cbn [obind expect Ascii.eqb Bool.eqb].
  rewrite field_zero_padded by (try reflexivity; cbn; lia).
  cbn [obind expect Ascii.eqb Bool.eqb].
  rewrite field_zero_padded by (try reflexivity; cbn; lia).
  cbn [obind expect Ascii.eqb Bool.eqb].
  rewrite field_fraction_zero_padded by lia.
  reflexivity.
Qed.

Lemma exact_form_well_formed (p : pipeline) : exact_form p -> well_formed p.
Proof.
  intros [y [m [d [hh [mm [ss [us [Hc Hdt]]]]]]]].
  unfold well_formed. destruct p as [created trigger]. cbn [created_on] in Hc.
  subst created. rewrite creation_date_timestamp; exact Hdt.
Qed.

(** ** Running computations *)

Section RunLemmas.
Context {S A B : Type}.

Lemma outcome_bind (m : M S A) (f : A -> M S B) (s : S) :
  outcome (bind m f s)
  = match outcome (m s) with
    | Ok a => outcome (f a (final (m s)))
    | Raise e => Raise e
    | OutOfFuel => OutOfFuel
    end.
Proof.
  unfold bind, outcome, events, final; simpl.
  destruct (m s) as [[[a | e |] s1] evs1]; simpl; try reflexivity.
  destruct (f a s1) as [[r s2] evs2]; reflexivity.
Qed.

Lemma events_bind (m : M S A) (f : A -> M S B) (s : S) :
  events (bind m f s)
  = (events (m s)
     ++ match outcome (m s) with
        | Ok a => events (f a (final (m s)))
        | _ => []
        end)%list.
Proof.
  unfold bind, outcome, events, final; simpl.
  destruct (m s) as [[[a | e |] s1] evs1]; simpl;
    try (rewrite app_nil_r; reflexivity).
  destruct (f a s1) as [[r s2] evs2]; reflexivity.
Qed.

Lemma final_bind (m : M S A) (f : A -> M S B) (s : S) :
  final (bind m f s)
  = match outcome (m s) with
    | Ok a => final (f a (final (m s)))
    | _ => final (m s)
    end.
Proof.
  unfold bind, outcome, events, final; simpl.
  destruct (m s) as [[[a | e |] s1] evs1]; simpl; try reflexivity.
  destruct (f a s1) as [[r s2] evs2]; reflexivity.
Qed.
End RunLemmas.

(** Push [outcome], [events] and [final] through one [bind]. *)
Ltac run_bind :=
  match goal with
  | |- context [outcome (bind ?m ?f ?s)] => rewrite (outcome_bind m f s)
  | |- context [events (bind ?m ?f ?s)] => rewrite (events_bind m f s)
  | |- context [final (bind ?m ?f ?s)] => rewrite (final_bind m f s)
  end.

(** ** The activity classifier *)

Section ClassifierProofs.
Variable srv : Remote.

Lemma examined_cons (s s' : state srv) (t : Z) (p : pipeline)
    (rest : list pipeline) :
  utcnow srv s = (t, s') ->
  examined srv s (p :: rest) = ((t, p) :: examined srv s' rest)%list.
Proof.
  intros Ht. unfold examined. cbn [length readings]. rewrite Ht.
  reflexivity.
Qed.

Lemma verdict_from_cons (n : nat) (test : bool) (x : Z * pipeline)
    (xs : list (Z * pipeline)) :
  verdict_from n test (x :: xs)
  = if within test x then
      if negb (trigger_name (snd x) =? "SCHEDULE")%string
         || (1 <? Datatypes.S n)%nat
      then true
      else verdict_from (Datatypes.S n) test xs
    else verdict_from n test xs.
Proof.
  unfold verdict_from, count_recent, user_triggered.
  cbn [existsb filter].
  destruct (within test x); cbn [andb orb length]; [| reflexivity].
  destruct (negb (trigger_name (snd x) =? "SCHEDULE")%string);
    cbn [orb]; [reflexivity |].
  set (k := length (filter (within test) xs)).
  destruct n as [| n].
  - replace (1 <? 1)%nat with false by reflexivity.
    f_equal. destruct k as [| k]; reflexivity.
  - replace (1 <? Datatypes.S (Datatypes.S n))%nat with true
      by reflexivity.
    apply orb_true_iff. right. apply andb_true_iff.
    split; apply Nat.leb_le; lia.
Qed.

(** One iteration of the loop. *)
Lemma loop_cons (test : bool) (p : pipeline) (rest : list pipeline)
    (n : nat) (s : state srv) :
  outcome (check_development_status_loop srv test (p :: rest) n s)
  = match creation_date p with
    | None => Raise ValueError
    | Some d =>
        let '(t, s') := utcnow srv s in
        if t - d <=? recent test then
          if negb (trigger_name p =? "SCHEDULE")%string
             || (1 <? Datatypes.S n)%nat
          then Ok true
          else outcome (check_development_status_loop srv test rest
                          (Datatypes.S n) s')
        else outcome (check_development_status_loop srv test rest n s')
    end.
Proof.
  cbn [check_development_status_loop].
  run_bind.
  destruct (creation_date p) as [d |];
    cbn [outcome final fst snd lift]; [| reflexivity].
  run_bind. unfold datetime_now.
  destruct (utcnow srv s) as [t s']. cbn [outcome final fst snd].
  destruct (t - d <=? recent test); [| reflexivity].
  destruct (negb (trigger_name p =? "SCHEDULE")%string || _);
    reflexivity.
Qed.

Lemma loop_verdict (test : bool) (E : list pipeline) :
  Forall well_formed E ->
  forall (n : nat) (s : state srv),
    outcome (check_development_status_loop srv test E n s)
    = Ok (verdict_from n test (examined srv s E)).
Proof.
  induction 1 as [| p rest Hp _ IH]; intros n s.
  - reflexivity.
  - rewrite loop_cons. unfold well_formed in Hp.
    destruct (creation_date p) as [d |] eqn:Hd; [| congruence].
    destruct (utcnow srv s) as [t s'] eqn:Ht.
    rewrite (examined_cons _ _ _ _ _ Ht), verdict_from_cons.
    unfold within. cbn [fst snd]. rewrite Hd.
    destruct (t - d <=? recent test); [| apply IH].
    destruct (negb (trigger_name p =? "SCHEDULE")%string || _);
      [reflexivity | apply IH].
Qed.

Lemma verdict_from_0 (test : bool) (xs : list (Z * pipeline)) :
  verdict_from 0 test xs = true
  <-> (2 <= count_recent test xs)%nat
      \/ exists x, In x xs /\ within test x = true
                   /\ trigger_name (snd x) <> "SCHEDULE".
Proof.
  unfold verdict_from. cbn [Nat.add].
  rewrite orb_true_iff, andb_true_iff, existsb_exists, !Nat.leb_le.
  split.
  - intros [[x [Hin Hx]] | [_ H2]]; [right | left; exact H2].
    unfold user_triggered in Hx. apply andb_true_iff in Hx.
    destruct Hx as [Hw Hs]. exists x. repeat split; trivial.
    intros Heq. rewrite Heq in Hs. discriminate.
  - intros [H2 | [x [Hin [Hw Hs]]]]; [right; lia | left].
    exists x. split; [exact Hin |].
    unfold user_triggered. rewrite Hw. cbn [andb].
    apply negb_true_iff, String.eqb_neq. exact Hs.
Qed.

Lemma check_development_status_outcome (E : list pipeline) (test : bool)
    (s : state srv) :
  outcome (check_development_status srv E test s)
  = outcome (check_development_status_loop srv test E 0 s).
Proof. unfold check_development_status. run_bind. reflexivity. Qed.

(** Reading by reading: when every creation timestamp parses, the
    classifier returns a verdict, and the verdict is "in development"
    exactly when two or more pipelines are within the window of the
    instant at which they are examined, or one of those within the
    window was not triggered by the schedule. *)
Lemma check_development_status_examined (E : list pipeline) (test : bool)
    (s : state srv) :
  Forall well_formed E ->
  exists b : bool,
    outcome (check_development_status srv E test s) = Ok b
    /\ (b = true
        <-> (2 <= count_recent test (examined srv s E))%nat
            \/ exists x, In x (examined srv s E)
                         /\ within test x = true
                         /\ trigger_name (snd x) <> "SCHEDULE")
    /\ (E = [] -> b = false)
    /\ (forall x, filter (within test) (examined srv s E) = [x] ->
                  trigger_name (snd x) = "SCHEDULE" -> b = false).
Proof.
  intros Hwf. exists (verdict_from 0 test (examined srv s E)).
  split; [| split; [| split]].
  - rewrite check_development_status_outcome. apply loop_verdict, Hwf.
  - apply verdict_from_0.
  - intros ->. reflexivity.
  - intros x Hx Hs. apply not_true_is_false. intros Hv.
    apply verdict_from_0 in Hv. unfold count_recent in Hv.
    destruct Hv as [H2 | [y [Hin [Hw Hy]]]].
    + rewrite Hx in H2. cbn in H2. lia.
    + assert (Hf : In y (filter (within test) (examined srv s E)))
        by (apply filter_In; split; assumption).
      rewrite Hx in Hf. destruct Hf as [<- | []]. contradiction.
Qed.

(** Under a well-formed history the classifier always returns. *)
Lemma check_development_status_total (E : list pipeline) (test : bool)
    (s : state srv) :
  Forall well_formed E ->
  exists b : bool, outcome (check_development_status srv E test s) = Ok b.
Proof.
  intros Hwf. rewrite check_development_status_outcome.
  eexists. apply loop_verdict, Hwf.
Qed.

(** A timestamp that does not parse, met before the loop has returned,
    ends the call with a [ValueError]. *)
Lemma check_development_status_first_malformed (p : pipeline)
    (rest : list pipeline) (test : bool) (s : state srv) :
  creation_date p = None ->
  outcome (check_development_status srv (p :: rest) test s)
  = Raise ValueError.
Proof.
  intros Hp. rewrite check_development_status_outcome, loop_cons, Hp.
  reflexivity.
Qed.

(** *** Order of the history *)


Lemma examined_frozen (now : Z) (E : list pipeline) (s : state srv) :
  Forall (eq now) (readings srv s (length E)) ->
  examined srv s E = map (pair now) E.
Proof.
  unfold examined. revert s.
  induction E as [| p rest IH]; intros s Hall; cbn [length readings] in *.
  - reflexivity.
  - destruct (utcnow srv s) as [t s'].
    inversion Hall as [| ? ? Ht Hrest]; subst.
    cbn [combine map]. f_equal. apply IH, Hrest.
Qed.

(** With one evaluation instant for the whole scan, the verdict is a
    count and a search over the history itself. *)
Lemma check_development_status_single_instant (now : Z) (E : list pipeline)
    (test : bool) (s : state srv) :
  Forall well_formed E ->
  Forall (eq now) (readings srv s (length E)) ->
  outcome (check_development_status srv E test s)
  = Ok (verdict_from 0 test (map (pair now) E)).
Proof.
  intros Hwf Hnow.
  rewrite check_development_status_outcome, (loop_verdict test E Hwf).
  now rewrite (examined_frozen now E s Hnow).
Qed.







(** *** Build executions and the evaluation instant *)





End ClassifierProofs.

(** *** The classifier on concrete histories *)






(** C10.  The classifier returns a verdict when every creation timestamp
    has the exact form YYYY-MM-DDTHH:MM:SS.ffffffZ (and names a moment of
    the calendar); a history that starts with a timestamp without
    fractional seconds, or in another format, makes it raise the parse
    error. *)
Theorem check_development_status_partial :
  (forall (srv : Remote) (E : list pipeline) (test : bool) (s : state srv),
      Forall exact_form E ->
      exists b : bool, outcome (check_development_status srv E test s) = Ok b)
  /\ (forall (srv : Remote) (rest : list pipeline) (test : bool)
             (s : state srv),
         outcome (check_development_status srv (Demo.no_fraction :: rest)
                    test s) = Raise ValueError)
  /\ (forall (srv : Remote) (rest : list pipeline) (test : bool)
             (s : state srv),
         outcome (check_development_status srv (Demo.other_format :: rest)
                    test s) = Raise ValueError).
Proof.
  split; [| split]; intros srv.
  - intros E test s Hall. apply check_development_status_total.
    eapply Forall_impl; [| exact Hall]. apply exact_form_well_formed.
  - intros rest test s.
    apply check_development_status_first_malformed. reflexivity.
  - intros rest test s.
    apply check_development_status_first_malformed. reflexivity.
Qed.

Lemma check_development_status_partial_witness :
  Forall exact_form [Demo.push_yesterday]
  /\ exists b : bool,
       outcome (check_development_status (Demo.remote Demo.quiet)
                  [Demo.push_yesterday] true 0%nat) = Ok b.
Proof.
  assert (Hall : Forall exact_form [Demo.push_yesterday]).
  { repeat constructor. exists 2024, 1, 7, 9, 30, 0, 250000.
    split; [vm_compute; reflexivity | vm_compute; discriminate]. }
  split; [exact Hall |].
  exact (proj1 check_development_status_partial (Demo.remote Demo.quiet)
           [Demo.push_yesterday] true 0%nat Hall).
Defined.

(** ** The Bitbucket readers *)

Section ReaderProofs.
Variables SCHEDULE WORKSPACE : string.
Variable srv : Remote.

Lemma get_default_branch_run (repo_slug : string) (s : state srv) :
  get_default_branch WORKSPACE srv repo_slug s
  = let '(r, s') := branches srv repo_slug s in
    let url := repositories_url WORKSPACE repo_slug ++ "/refs/branches/" in
    match text r with
    | NotJson =>
        (Ok None, s',
         [Request GET url;
          Log ERROR ("Failed to get default branch name: " ++ reason r)])
    | ErrorEnvelope message =>
        (Ok None, s',
         [Request GET url;
          Log ERROR ("Failed to get default branch name: " ++ message)])
    | Values bs =>
        match filter (fun b => existsb (String.eqb (name b))
                                 ["main"; "master"]) bs with
        | [] => (Raise IndexError, s', [Request GET url])
        | b :: _ => (Ok (Some (name b)), s', [Request GET url])
        end
    end%list.
Proof.
  unfold get_default_branch, bind, call, query_names.
  destruct (branches srv repo_slug s) as [[t sc rs] s'].
  destruct t as [| message | bs]; cbn [text reason status_code];
    try reflexivity.
  destruct (filter _ bs) as [| b rest]; reflexivity.
Qed.

Lemma get_schedules_run (repo_slug : string) (s : state srv) :
  get_schedules WORKSPACE srv repo_slug s
  = let '(r, s') := schedules srv repo_slug s in
    let url := repositories_url WORKSPACE repo_slug
               ++ "/pipelines_config/schedules" in
    let entry := Log DEBUG ("Retrieving scheduled pipelines for repo: "
                            ++ repo_slug ++ "...") in
    match text r with
    | NotJson =>
        (Ok None, s',
         [entry; Request GET url;
          Log ERROR ("Failed to retrieve scheduled pipelines: "
                     ++ reason r)])
    | ErrorEnvelope message =>
        (Ok None, s',
         [entry; Request GET url;
          Log ERROR ("Failed to retrieve scheduled pipelines: "
                     ++ message)])
    | Values l => (Ok (Some l), s', [entry; Request GET url])
    end.
Proof.
  unfold get_schedules, bind, call, logging_debug, emit.
  destruct (schedules srv repo_slug s) as [[t sc rs] s'].
  destruct t; reflexivity.
Qed.

Lemma get_latest_pipelines_run (repo_slug : string) (s : state srv) :
  get_latest_pipelines WORKSPACE srv repo_slug s
  = let '(r, s') := pipelines srv repo_slug s in
    let url := repositories_url WORKSPACE repo_slug ++ "/pipelines" in
    let entry := Log DEBUG ("Retrieving latest pipelines for repo: "
                            ++ repo_slug ++ "...") in
    match text r with
    | NotJson =>
        (Ok None, s',
         [entry; Request GET url;
          Log ERROR ("Failed to get latest pipelines: " ++ reason r)])
    | ErrorEnvelope message =>
        (Ok None, s',
         [entry; Request GET url;
          Log ERROR ("Failed to get latest pipelines: " ++ message)])
    | Values l => (Ok (Some l), s', [entry; Request GET url])
    end.
Proof.
  unfold get_latest_pipelines, bind, call, logging_debug, emit.
  destruct (pipelines srv repo_slug s) as [[t sc rs] s'].
  destruct t; reflexivity.
Qed.

Lemma get_default_branch_passive (repo_slug : string) (s : state srv) :
  forallb passive (events (get_default_branch WORKSPACE srv repo_slug s))
  = true.
Proof.
  rewrite get_default_branch_run.
  destruct (branches srv repo_slug s) as [[t sc rs] s'].
  destruct t as [| message | bs]; cbn [text]; try reflexivity.
  destruct (filter _ bs); reflexivity.
Qed.

Lemma get_schedules_passive (repo_slug : string) (s : state srv) :
  forallb passive (events (get_schedules WORKSPACE srv repo_slug s)) = true.
Proof.
  rewrite get_schedules_run.
  destruct (schedules srv repo_slug s) as [[t sc rs] s'].
  destruct t; reflexivity.
Qed.

Lemma get_latest_pipelines_passive (repo_slug : string) (s : state srv) :
  forallb passive (events (get_latest_pipelines WORKSPACE srv repo_slug s))
  = true.
Proof.
  rewrite get_latest_pipelines_run.
  destruct (pipelines srv repo_slug s) as [[t sc rs] s'].
  destruct t; reflexivity.
Qed.

(** The readers always return: they never raise out of a response that
    carries schedules or pipelines, an error or no JSON at all. *)
Lemma get_latest_pipelines_returns (repo_slug : string) (s : state srv) :
  exists pl, outcome (get_latest_pipelines WORKSPACE srv repo_slug s) = Ok pl.
Proof.
  rewrite get_latest_pipelines_run.
  destruct (pipelines srv repo_slug s) as [[t sc rs] s'].
  destruct t; eexists; reflexivity.
Qed.

Lemma get_schedules_returns (repo_slug : string) (s : state srv) :
  exists l, outcome (get_schedules WORKSPACE srv repo_slug s) = Ok l.
Proof.
  rewrite get_schedules_run.
  destruct (schedules srv repo_slug s) as [[t sc rs] s'].
  destruct t; eexists; reflexivity.
Qed.

Lemma check_development_status_loop_passive (test : bool)
    (E : list pipeline) :
  forall (n : nat) (s : state srv),
    forallb passive (events (check_development_status_loop srv test E n s))
    = true.
Proof.
  induction E as [| p rest IH]; intros n s.
  - reflexivity.
  - cbn [check_development_status_loop]. run_bind.
    destruct (creation_date p) as [d |];
      cbn [outcome events final fst snd lift app]; [| reflexivity].
    run_bind. unfold datetime_now at 1 2 3.
    destruct (utcnow srv s) as [t s'].
    cbn [outcome events final fst snd app].
    destruct (t - d <=? recent test); [| apply IH].
    destruct (negb (trigger_name p =? "SCHEDULE")%string || _);
      [reflexivity | apply IH].
Qed.

Lemma check_development_status_passive (E : list pipeline) (test : bool)
    (s : state srv) :
  forallb passive (events (check_development_status srv E test s)) = true.
Proof.
  unfold check_development_status. run_bind.
  cbn [logging_debug emit outcome events final fst snd app forallb].
  rewrite check_development_status_loop_passive. reflexivity.
Qed.
End ReaderProofs.

(** ** The schedule repository *)

Section ScheduleProofs.
Variables SCHEDULE WORKSPACE : string.
Variable srv : Remote.

Local Abbreviation get_default_branch' := (get_default_branch WORKSPACE srv).
Local Abbreviation get_schedules' := (get_schedules WORKSPACE srv).
Local Abbreviation create_schedule' :=
  (create_schedule SCHEDULE WORKSPACE srv).
Local Abbreviation delete_schedule' :=
  (delete_schedule SCHEDULE WORKSPACE srv).
Local Abbreviation targets_default' := (targets_default SCHEDULE).

Lemma create_schedule_loop_existsb (default_branch : option string)
    (l : list schedule) :
  create_schedule_loop SCHEDULE default_branch l
  = existsb (targets_default' default_branch) l.
Proof.
  induction l as [| sch rest IH]; cbn [create_schedule_loop existsb].
  - reflexivity.
  - rewrite IH. destruct (targets_default' default_branch sch); reflexivity.
Qed.

(** [create_schedule], step by step. *)
Lemma create_schedule_run (repo_slug : string) (dry_run : bool)
    (s : state srv) :
  create_schedule' repo_slug dry_run s
  = let entry := create_invoked repo_slug in
    let '(r1, s1, e1) := get_default_branch' repo_slug s in
    match r1 with
    | Ok default_branch =>
        let '(r2, s2, e2) := get_schedules' repo_slug s1 in
        match r2 with
        | Ok (Some l) =>
            if existsb (targets_default' default_branch) l then
              (Ok tt, s2, entry :: e1 ++ e2 ++ [already_exists])
            else if dry_run then
              (Ok tt, s2,
               entry :: e1 ++ e2 ++ [eligible_for_scheduling repo_slug])
            else
              let payload :=
                mkPayload default_branch default_branch true SCHEDULE in
              let '(response, s3) :=
                post_schedule srv repo_slug payload s2 in
              (Ok tt, s3,
               entry :: e1 ++ e2
               ++ [Request POST (repositories_url WORKSPACE repo_slug
                                 ++ "/pipelines_config/schedules");
                   match text response with
                   | ErrorEnvelope message =>
                       Log ERROR ("Failed to create scheduled pipeline: "
                                  ++ message)
                   | NotJson =>
                       Log ERROR ("Failed to create scheduled pipeline: "
                                  ++ reason response)
                   | Values _ =>
                       Log DEBUG ("Scheduled pipeline created for repo: "
                                  ++ repo_slug ++ ".")
                   end])
        | Ok None => (Raise TypeError, s2, entry :: e1 ++ e2)
        | Raise e => (Raise e, s2, entry :: e1 ++ e2)
        | OutOfFuel => (OutOfFuel, s2, entry :: e1 ++ e2)
        end
    | Raise e => (Raise e, s1, entry :: e1)
    | OutOfFuel => (OutOfFuel, s1, entry :: e1)
    end%list.
Proof.
  unfold create_schedule, bind, logging_debug, logging_info, logging_error,
    emit, lift, call, iter, create_invoked.
  destruct (get_default_branch' repo_slug s) as [[[db | e |] s1] e1];
    try reflexivity.
  destruct (get_schedules' repo_slug s1) as [[[[l |] | e |] s2] e2];
    try (cbn [app]; rewrite ?app_nil_r; reflexivity).
  rewrite create_schedule_loop_existsb.
  destruct (existsb (targets_default' db) l); [reflexivity |].
  destruct dry_run; [reflexivity |].
  destruct (post_schedule srv repo_slug _ s2) as [[t sc rs] s3].
  destruct t; reflexivity.
Qed.

(** The loop of [delete_schedule] stops at the first schedule that
    targets the default branch with the fixed cron pattern. *)
Lemma delete_schedule_loop_run (repo_slug : string)
    (default_branch : option string) (l : list schedule) (s : state srv) :
  delete_schedule_loop SCHEDULE WORKSPACE srv repo_slug default_branch l s
  = match find (targets_default' default_branch) l with
    | None => (Ok false, s, [])
    | Some sch =>
        let '(response, s') :=
          delete_schedule_uuid srv repo_slug (uuid sch) s in
        let request := delete_request WORKSPACE repo_slug sch in
        match text response with
        | ErrorEnvelope message =>
            (Ok true, s',
             [request;
              Log ERROR ("Failed to delete scheduled pipeline: "
                         ++ message)])
        | NotJson =>
            if negb (status_code response =? 204) then
              (Ok true, s',
               [request;
                Log ERROR ("Failed to delete scheduled pipeline: "
                           ++ reason response)])
            else (Ok false, s', [request])
        | Values _ => (Ok false, s', [request])
        end
    end.
Proof.
  induction l as [| sch rest IH]; cbn [delete_schedule_loop find].
  - reflexivity.
  - destruct (targets_default' default_branch sch); [| exact IH].
    unfold bind, call, logging_error, emit, delete_request.
    destruct (delete_schedule_uuid srv repo_slug (uuid sch) s)
      as [[t sc rs] s'].
    destruct t; cbn [text status_code reason]; try reflexivity.
    destruct (negb (sc =? 204)); reflexivity.
Qed.

(** [delete_schedule], step by step. *)
Lemma delete_schedule_run (repo_slug : string) (dry_run : bool)
    (s : state srv) :
  delete_schedule' repo_slug dry_run s
  = let entry := delete_invoked repo_slug in
    let '(r1, s1, e1) := get_default_branch' repo_slug s in
    match r1 with
    | Ok default_branch =>
        let '(r2, s2, e2) := get_schedules' repo_slug s1 in
        match r2 with
        | Ok None =>
            (Ok tt, s2,
             entry :: e1 ++ e2
             ++ [Log ERROR (if dry_run then ""
                            else "Failed to delete scheduled pipeline.")])
        | Ok (Some l) =>
            if dry_run then
              (Ok tt, s2,
               entry :: e1 ++ e2
               ++ [Log INFO ("Eligible for Schedule Deletion: "
                             ++ repo_slug)])
            else
              let '(r3, s3, e3) :=
                delete_schedule_loop SCHEDULE WORKSPACE srv repo_slug
                  default_branch l s2 in
              match r3 with
              | Ok true => (Ok tt, s3, entry :: e1 ++ e2 ++ e3)
              | Ok false =>
                  (Ok tt, s3,
                   entry :: e1 ++ e2 ++ e3
                   ++ [Log DEBUG ("Scheduled pipeline deleted for repo: "
                                  ++ repo_slug ++ ".")])
              | Raise e => (Raise e, s3, entry :: e1 ++ e2 ++ e3)
              | OutOfFuel => (OutOfFuel, s3, entry :: e1 ++ e2 ++ e3)
              end
        | Raise e => (Raise e, s2, entry :: e1 ++ e2)
        | OutOfFuel => (OutOfFuel, s2, entry :: e1 ++ e2)
        end
    | Raise e => (Raise e, s1, entry :: e1)
    | OutOfFuel => (OutOfFuel, s1, entry :: e1)
    end%list.
Proof.
  unfold delete_schedule, bind at 1 2 3, logging_debug, logging_info,
    logging_error, emit, delete_invoked.
  destruct (get_default_branch' repo_slug s) as [[[db | e |] s1] e1];
    try reflexivity.
  destruct (get_schedules' repo_slug s1) as [[[[l |] | e |] s2] e2];
    try reflexivity.
  - destruct dry_run; [reflexivity |].
    unfold bind, ret.
    destruct (delete_schedule_loop _ _ _ _ _ _ _) as [[[[|] | e |] s3] e3];
      cbn [app]; rewrite ?app_nil_r; reflexivity.
  - destruct dry_run; reflexivity.
Qed.

Lemma passive_no_mutation (evs : list event) :
  forallb passive evs = true -> mutations evs = [].
Proof.
  unfold mutations. induction evs as [| e evs IH]; cbn [forallb filter].
  - reflexivity.
  - intros H. apply andb_true_iff in H. destruct H as [He Hevs].
    unfold passive in He.
    destruct (is_mutation e); [discriminate | exact (IH Hevs)].
Qed.

Lemma mutations_app (xs ys : list event) :
  mutations (xs ++ ys) = (mutations xs ++ mutations ys)%list.
Proof. apply filter_app. Qed.

(** What [get_default_branch] answers: the first branch of the page
    that is called main or master; nothing on an error envelope or a
    body that is not JSON; an [IndexError] when the page has no such
    branch. *)
Lemma get_default_branch_answer (repo_slug : string) (s : state srv) :
  let r := fst (branches srv repo_slug s) in
  outcome (get_default_branch' repo_slug s)
  = match text r with
    | Values bs =>
        match find (fun b => existsb (String.eqb (name b))
                               ["main"; "master"]) bs with
        | Some b => Ok (Some (name b))
        | None => Raise IndexError
        end
    | _ => Ok None
    end.
Proof.
  cbv zeta. rewrite get_default_branch_run.
  destruct (branches srv repo_slug s) as [[t sc rs] s'].
  destruct t as [| message | bs]; cbn [text fst]; try reflexivity.
  induction bs as [| b bs IH]; cbn [filter find]; [reflexivity |].
  destruct (existsb (String.eqb (name b)) ["main"; "master"]);
    [reflexivity | exact IH].
Qed.

(** [create_schedule] iterates over the schedule list without looking
    at it first: when listing the schedules failed, it raises. *)
Lemma create_schedule_without_list (repo_slug : string) (dry_run : bool)
    (s : state srv) (default_branch : option string) :
  outcome (get_default_branch' repo_slug s) = Ok default_branch ->
  outcome (get_schedules' repo_slug
             (final (get_default_branch' repo_slug s))) = Ok None ->
  outcome (create_schedule' repo_slug dry_run s) = Raise TypeError.
Proof.
  rewrite create_schedule_run.
  destruct (get_default_branch' repo_slug s) as [[r1 s1] e1].
  cbn [outcome final fst snd]. intros ->.
  destruct (get_schedules' repo_slug s1) as [[r2 s2] e2].
  cbn [outcome fst]. intros ->. reflexivity.
Qed.

(** [delete_schedule] sends at most one request that changes the
    schedules.  Once the default branch is resolved (to a name or to
    nothing), what it sends is the deletion of the first schedule with
    the fixed cron pattern on that branch, and only that: nothing when
    no schedule matches, when listing the schedules failed, or in a dry
    run. *)
Lemma delete_schedule_first_match (repo_slug : string) (dry_run : bool)
    (s : state srv) :
  let run := delete_schedule' repo_slug dry_run s in
  (length (mutations (events run)) <= 1)%nat
  /\ forall default_branch,
       outcome (get_default_branch' repo_slug s) = Ok default_branch ->
       outcome run = Ok tt
       /\ forall l,
            outcome (get_schedules' repo_slug
                       (final (get_default_branch' repo_slug s)))
            = Ok l ->
            mutations (events run)
            = match l with
              | Some l =>
                  if dry_run then []
                  else match find (targets_default' default_branch) l with
                       | Some sch =>
                           [delete_request WORKSPACE repo_slug sch]
                       | None => []
                       end
              | None => []
              end.
Proof.
  cbv zeta. rewrite delete_schedule_run.
  generalize (get_default_branch_passive WORKSPACE srv repo_slug s).
  destruct (get_default_branch' repo_slug s) as [[r1 s1] e1].
  cbn [outcome final events fst snd]. intros P1.
  apply passive_no_mutation in P1.
  destruct r1 as [db | e |].
  2, 3: (split; [| discriminate]); cbn [events snd];
    change (mutations (delete_invoked repo_slug :: e1))
      with (mutations e1);
    rewrite P1; cbn; lia.
  generalize (get_schedules_passive WORKSPACE srv repo_slug s1).
  destruct (get_schedules_returns WORKSPACE srv repo_slug s1) as [l0 Hl0].
  destruct (get_schedules' repo_slug s1) as [[r2 s2] e2].
  cbn [outcome events fst snd] in *. subst r2. intros P2.
  apply passive_no_mutation in P2.
  assert (Hpre : forall tl, mutations (delete_invoked repo_slug
                                      :: e1 ++ e2 ++ tl)
                            = mutations tl).
  { intros tl.
    change (mutations (delete_invoked repo_slug :: e1 ++ e2 ++ tl))
      with (mutations (e1 ++ e2 ++ tl)).
    now rewrite !mutations_app, P1, P2. }
  destruct l0 as [l |].
  - destruct dry_run.
    + cbn [outcome events fst snd]. rewrite Hpre.
      split; [cbn; lia |]. intros db' Hdb. split; [reflexivity |].
      intros l' Hl'. inversion Hl'; subst. reflexivity.
    + rewrite delete_schedule_loop_run.
      destruct (find (targets_default' db) l) as [sch |] eqn:Hfind.
      * destruct (delete_schedule_uuid srv repo_slug (uuid sch) s2)
          as [[t sc rs] s3].
        destruct t; cbn [text status_code];
          try destruct (negb (sc =? 204));
          cbn [outcome events fst snd]; rewrite Hpre;
          (split; [cbn; lia |]); intros db' Hdb;
          (split; [reflexivity |]); intros l' Hl';
          inversion Hdb; inversion Hl'; subst; rewrite Hfind;
          reflexivity.
      * cbn [outcome events fst snd]. rewrite Hpre.
        split; [cbn; lia |]. intros db' Hdb. split; [reflexivity |].
        intros l' Hl'. inversion Hdb; inversion Hl'; subst.
        rewrite Hfind. reflexivity.
  - cbn [outcome events fst snd]. rewrite Hpre.
    split; [cbn; lia |]. intros db' Hdb. split; [reflexivity |].
    intros l' Hl'. inversion Hl'; subst. reflexivity.
Qed.

(** Unfold [create_schedule] down to the responses of the two
    lookups. *)
Ltac create_cases repo_slug s :=
  rewrite create_schedule_run, get_default_branch_run;
  let t1 := fresh "t" in let s1 := fresh "s" in
  destruct (branches srv repo_slug s) as [[t1 ? ?] s1];
  destruct t1 as [| ? | ?]; cbn [text reason];
  [| | match goal with
       | |- context [filter ?f ?bs] => destruct (filter f bs) as [| ? ?]
       end];
  cbn [outcome final events fst snd];
  try (rewrite get_schedules_run;
       let t2 := fresh "t" in
       destruct (schedules srv repo_slug s1) as [[t2 ? ?] ?];
       destruct t2 as [| ? | ?]);
  cbn [text reason outcome final events fst snd].

Ltac not_in_events :=
  cbn [app In]; intros Hin;
  repeat (destruct Hin as [Hin | Hin]; [cbn in Hin; discriminate Hin |]);
  contradiction.

Lemma create_schedule_dry_run_no_mutation (repo_slug : string)
    (s : state srv) :
  mutations (events (create_schedule' repo_slug true s)) = [].
Proof.
  create_cases repo_slug s; try reflexivity;
    match goal with
    | |- context [existsb ?f ?l] => destruct (existsb f l); reflexivity
    end.
Qed.

Lemma create_schedule_conflict (repo_slug : string) (dry_run : bool)
    (s : state srv) (default_branch : option string) (l : list schedule) :
  outcome (get_default_branch' repo_slug s) = Ok default_branch ->
  outcome (get_schedules' repo_slug
             (final (get_default_branch' repo_slug s))) = Ok (Some l) ->
  existsb (targets_default' default_branch) l = true ->
  let run := create_schedule' repo_slug dry_run s in
  outcome run = Ok tt
  /\ In already_exists (events run)
  /\ ~ In (eligible_for_scheduling repo_slug) (events run)
  /\ mutations (events run) = [].
Proof.
  cbv zeta. revert default_branch l.
  create_cases repo_slug s; intros db l' Hdb Hl Hex;
    inversion Hdb; inversion Hl; subst; rewrite Hex;
    cbn [outcome events fst snd];
    (split; [reflexivity |]); (split; [cbn; tauto |]);
    (split; [not_in_events | reflexivity]).
Qed.

Lemma create_schedule_dry_run_eligible (repo_slug : string)
    (s : state srv) (default_branch : option string) (l : list schedule) :
  outcome (get_default_branch' repo_slug s) = Ok default_branch ->
  outcome (get_schedules' repo_slug
             (final (get_default_branch' repo_slug s))) = Ok (Some l) ->
  existsb (targets_default' default_branch) l = false ->
  let run := create_schedule' repo_slug true s in
  outcome run = Ok tt
  /\ In (eligible_for_scheduling repo_slug) (events run)
  /\ ~ In already_exists (events run).
Proof.
  cbv zeta. revert default_branch l.
  create_cases repo_slug s; intros db l' Hdb Hl Hex;
    inversion Hdb; inversion Hl; subst; rewrite Hex;
    cbn [outcome events fst snd];
    (split; [reflexivity |]); (split; [cbn; tauto | not_in_events]).
Qed.

(** C5, amended.  A dry run of [create_schedule] sends no request that
    changes the schedules.  The check for an existing schedule comes
    first whatever the mode: once both lookups returned, a schedule
    with the fixed cron pattern on the default branch makes the call
    log the conflict, dry run or not, without reporting eligibility and
    without a request; without such a schedule the dry run reports the
    repository as eligible. *)
Theorem create_schedule_checks_before_dry_run (repo_slug : string)
    (s : state srv) :
  let run := fun dry_run => create_schedule' repo_slug dry_run s in
  mutations (events (run true)) = []
  /\ forall (default_branch : option string) (l : list schedule),
       outcome (get_default_branch' repo_slug s) = Ok default_branch ->
       outcome (get_schedules' repo_slug
                  (final (get_default_branch' repo_slug s)))
       = Ok (Some l) ->
       if existsb (targets_default' default_branch) l then
         forall dry_run,
           outcome (run dry_run) = Ok tt
           /\ In already_exists (events (run dry_run))
           /\ ~ In (eligible_for_scheduling repo_slug)
                  (events (run dry_run))
           /\ mutations (events (run dry_run)) = []
       else
         outcome (run true) = Ok tt
         /\ In (eligible_for_scheduling repo_slug) (events (run true))
         /\ ~ In already_exists (events (run true)).
Proof.
  cbv zeta. split; [apply create_schedule_dry_run_no_mutation |].
  intros db l Hdb Hl.
  destruct (existsb (targets_default' db) l) eqn:Hex.
  - intros dry_run.
    exact (create_schedule_conflict repo_slug dry_run s db l Hdb Hl Hex).
  - exact (create_schedule_dry_run_eligible repo_slug s db l Hdb Hl Hex).
Qed.



End ScheduleProofs.

(** ** The reconciler *)

Section ReconcilerProofs.
Variables SCHEDULE WORKSPACE : string.
Variable srv : Remote.
Variable re : Regex.

Local Abbreviation process_service' :=
  (process_service SCHEDULE WORKSPACE srv re).
Local Abbreviation process_services_loop' :=
  (process_services_loop SCHEDULE WORKSPACE srv re).




(** The body of the loop of [process_services], step by step. *)
Lemma process_service_run (override : option (list string))
    (dry_run test : bool) (service : string) (s : state srv) :
  process_service' override dry_run test service s
  = let entry := Log INFO ("Processing service: " ++ service ++ "...") in
    match excluded re override service with
    | Ok true =>
        (Ok tt, s,
         [entry;
          Log INFO ("Bitbucket repo for service " ++ service
                    ++ " overridden. Skipping...")])
    | Ok false =>
        let '(r1, s1, e1) := get_latest_pipelines WORKSPACE srv service s in
        match r1 with
        | Ok (Some (p :: ps)) =>
            let '(r2, s2, e2) :=
              check_development_status srv (p :: ps) test s1 in
            match r2 with
            | Ok in_development =>
                let '(r3, s3, e3) :=
                  if negb in_development
                  then create_schedule SCHEDULE WORKSPACE srv service
                         dry_run s2
                  else delete_schedule SCHEDULE WORKSPACE srv service
                         dry_run s2 in
                (r3, s3, entry :: e1 ++ e2 ++ e3)
            | Raise e => (Raise e, s2, entry :: e1 ++ e2)
            | OutOfFuel => (OutOfFuel, s2, entry :: e1 ++ e2)
            end
        | Ok _ =>
            (Ok tt, s1,
             entry :: e1
             ++ [Log INFO ("No pipelines found in repo for service: "
                           ++ service ++ ". Skipping...")])
        | Raise e => (Raise e, s1, entry :: e1)
        | OutOfFuel => (OutOfFuel, s1, entry :: e1)
        end
    | Raise e => (Raise e, s, [entry])
    | OutOfFuel => (OutOfFuel, s, [entry])
    end%list.
Proof.
  unfold process_service.
  assert (Hov :
    match override with
    | Some (p :: ps)%list => lift (match_override re service (p :: ps)%list)
    | _ => ret false
    end = lift (S := state srv) (excluded re override service))
    by (destruct override as [[| p ps] |]; reflexivity).
  rewrite Hov. clear Hov.
  unfold bind at 1 2, lift, logging_info, emit.
  destruct (excluded re override service) as [[|] | e |]; try reflexivity.
  unfold bind, emit.
  destruct (get_latest_pipelines WORKSPACE srv service s)
    as [[[[[| p ps] |] | e |] s1] e1]; try reflexivity.
  destruct (check_development_status srv (p :: ps) test s1)
    as [[[b | e |] s2] e2];
    try (cbn [app]; rewrite ?app_nil_r; reflexivity).
  destruct b; cbn [negb].
  - destruct (delete_schedule _ _ _ _ _ _) as [[r3 s3] e3]. reflexivity.
  - destruct (create_schedule _ _ _ _ _ _) as [[r3 s3] e3]. reflexivity.
Qed.




End ReconcilerProofs.

(** ** The override filter *)

Section OverrideProofs.
Variable re : Regex.

(** C8.  When every override pattern compiles, [match_override] answers,
    and it answers true exactly when some pattern of the list, once
    compiled, is found somewhere in the repository name by [search]; an
    empty list excludes nothing. *)
Theorem match_override_search (repo_slug : string) (override : list string) :
  Forall (compiles re) override ->
  (exists b : bool,
      match_override re repo_slug override = Ok b
      /\ (b = true
          <-> exists p c, In p override /\ compile re p = Some c
                          /\ search re c repo_slug = true))
  /\ match_override re repo_slug [] = Ok false.
Proof.
  intros Hall. split; [| reflexivity].
  induction Hall as [| p rest Hp _ IH]; cbn [match_override].
  - exists false. split; [reflexivity |].
    split; [discriminate | intros [p [c [[] _]]]].
  - unfold compiles in Hp.
    destruct (compile re p) as [c |] eqn:Hc; [| congruence].
    destruct (search re c repo_slug) eqn:Hs.
    + exists true. split; [reflexivity |].
      split; [intros _ | reflexivity].
      exists p, c. cbn [In]. auto.
    + destruct IH as [b [Hb Hiff]]. exists b. split; [exact Hb |].
      rewrite Hiff. split.
      * intros [q [d [Hin Hq]]]. exists q, d. cbn [In]. tauto.
      * intros [q [d [[<- | Hin] [Hq Hd]]]].
        -- rewrite Hc in Hq. inversion Hq; subst. congruence.
        -- exists q, d. auto.
Qed.

(** Without that hypothesis: the first pattern that does not compile,
    met before any match, makes the filter raise. *)
Lemma match_override_invalid (repo_slug p : string) (rest : list string) :
  compile re p = None ->
  match_override re repo_slug (p :: rest) = Raise ReError.
Proof. intros H. cbn [match_override]. rewrite H. reflexivity. Qed.
End OverrideProofs.

(** ** The catalog client *)

Section CatalogProofs.
Variable srv : Remote.

Lemma collect_services_segments (data : list service) :
  forall acc services,
    collect_services data acc = Ok services ->
    services = (acc ++ filter not_workspace (segments data))%list.
Proof.
  induction data as [| sv rest IH]; intros acc services;
    cbn [collect_services segments].
  - intros H. inversion H. subst. cbn [filter]. now rewrite app_nil_r.
  - destruct (url_component_4 sv) as [c | e |]; try discriminate.
    cbn [filter]. unfold not_workspace at 1.
    destruct (negb (c =? "workspace")%string); intros H; apply IH in H.
    + rewrite H, <- app_assoc. reflexivity.
    + exact H.
Qed.

Lemma collect_services_fuel (data : list service) :
  forall acc, collect_services data acc <> OutOfFuel.
Proof.
  induction data as [| sv rest IH]; intros acc; cbn [collect_services].
  - discriminate.
  - unfold url_component_4, last_item, item.
    destruct (rev (links sv)) as [| url ?]; [discriminate |].
    destruct (nth_error (split "/" url) 4) as [c |]; [| discriminate].
    destruct (negb (c =? "workspace")%string); apply IH.
Qed.

(** One turn of the [while True] loop. *)
Lemma get_active_services_loop_step (fuel page : nat) (acc : list string)
    (s : state srv) :
  get_active_services_loop srv (Datatypes.S fuel) page acc s
  = let '(response, s1) := list_service_definitions srv page s in
    let asked := ListServiceDefinitions page in
    match response with
    | CatalogErrors first => (Ok acc, s1, [asked; Log ERROR first])
    | CatalogData data =>
        match collect_services data acc with
        | Ok acc' =>
            match data with
            | [] => (Ok acc', s1, [asked])
            | _ :: _ =>
                let '(r, s2, e) :=
                  get_active_services_loop srv fuel (Datatypes.S page)
                    acc' s1 in
                (r, s2, asked :: e)
            end
        | Raise e => (Raise e, s1, [asked])
        | OutOfFuel => (OutOfFuel, s1, [asked])
        end
    end%list.
Proof.
  cbn [get_active_services_loop]. unfold bind at 1, call.
  destruct (list_service_definitions srv page s) as [[first | data] s1].
  - reflexivity.
  - unfold bind, lift.
    destruct (collect_services data acc) as [acc' | e |]; try reflexivity.
    destruct data as [| sv data]; [reflexivity |].
    destruct (get_active_services_loop srv fuel (Datatypes.S page) acc' s1)
      as [[r s2] e2].
    reflexivity.
Qed.

Lemma segments_app (a b : list service) :
  segments (a ++ b) = (segments a ++ segments b)%list.
Proof.
  induction a as [| x a IHa]; cbn [app segments]; [reflexivity |].
  destruct (url_component_4 x); rewrite IHa; reflexivity.
Qed.

Lemma get_active_services_loop_result (fuel : nat) :
  forall (page : nat) (acc : list string) (s : state srv)
         (services : list string),
    outcome (get_active_services_loop srv fuel page acc s) = Ok services ->
    services
    = (acc ++ filter not_workspace
                (segments (concat (pages_seen srv fuel page s))))%list
    /\ catalog_calls (events (get_active_services_loop srv fuel page acc s))
       = map ListServiceDefinitions
           (seq page (Datatypes.S (length (pages_seen srv fuel page s)))).
Proof.
  induction fuel as [| fuel IH]; intros page acc s services.
  - discriminate.
  - rewrite get_active_services_loop_step. cbn [pages_seen].
    destruct (list_service_definitions srv page s) as [[first | data] s1].
    + cbn. intros H. inversion H. subst.
      split; [now rewrite app_nil_r | reflexivity].
    + destruct (collect_services data acc) as [acc' | e |] eqn:Hcol;
        try (cbn; discriminate).
      apply collect_services_segments in Hcol.
      destruct data as [| sv data].
      * cbn in Hcol. rewrite app_nil_r in Hcol. subst acc'.
        cbn. intros H. inversion H. subst.
        split; [now rewrite app_nil_r | reflexivity].
      * specialize (IH (Datatypes.S page) acc' s1 services).
        destruct (get_active_services_loop srv fuel (Datatypes.S page)
                    acc' s1) as [[r2 s2] e2].
        cbn [outcome events fst snd] in *. intros H.
        destruct (IH H) as [Hs Hc]. split.
        -- rewrite Hs, Hcol. cbn [concat].
           rewrite segments_app, filter_app, app_assoc. reflexivity.
        -- unfold catalog_calls in *. cbn [filter is_catalog_call].
           rewrite Hc. reflexivity.
Qed.

Lemma get_active_services_loop_fuel (fuel : nat) :
  forall (page : nat) (acc : list string) (s : state srv),
    (length (pages_seen srv fuel page s) < fuel)%nat ->
    outcome (get_active_services_loop srv fuel page acc s) <> OutOfFuel.
Proof.
  induction fuel as [| fuel IH]; intros page acc s.
  - cbn. lia.
  - rewrite get_active_services_loop_step. cbn [pages_seen].
    destruct (list_service_definitions srv page s) as [[first | data] s1].
    + cbn. discriminate.
    + pose proof (collect_services_fuel data acc) as Hcol.
      destruct (collect_services data acc) as [acc' | e |];
        try (cbn; discriminate); [| contradiction].
      destruct data as [| sv data].
      * cbn. discriminate.
      * cbn [length]. intros Hlen.
        specialize (IH (Datatypes.S page) acc' s1).
        destruct (get_active_services_loop srv fuel (Datatypes.S page)
                    acc' s1) as [[r2 s2] e2].
        cbn [outcome fst] in *. apply IH. lia.
Qed.

(** C9.  A caller's non-empty list of repositories is what gets
    processed, as it is and without any event, so without a call to the
    catalog.  Otherwise the catalog is read page after page from page 0:
    the run ends when a page is empty or in error within the fuel, and
    the repositories it returns are the path segments of the entries
    read, in order, without those equal to "workspace". *)
Theorem active_services_enumeration (fuel : nat) (s : state srv) :
  (forall r rs,
      active_services srv fuel (Some (r :: rs)) s = (Ok (r :: rs), s, []))
  /\ forall repositories,
       truthy repositories = false ->
       let run := active_services srv fuel repositories s in
       ((length (pages_seen srv fuel 0 s) < fuel)%nat ->
        outcome run <> OutOfFuel)
       /\ forall services,
            outcome run = Ok services ->
            services = filter not_workspace
                         (segments (concat (pages_seen srv fuel 0 s)))
            /\ ~ In "workspace" services
            /\ catalog_calls (events run)
               = map ListServiceDefinitions
                   (seq 0 (Datatypes.S
                             (length (pages_seen srv fuel 0 s)))).
Proof.
  split; [reflexivity |].
  intros repositories Hfalsy. cbv zeta.
  assert (Hrun : active_services srv fuel repositories s
                 = get_active_services srv fuel s)
    by (destruct repositories as [[| r rs] |];
        [reflexivity | discriminate Hfalsy | reflexivity]).
  rewrite Hrun. unfold get_active_services.
  pose proof (get_active_services_loop_fuel fuel 0 [] s) as Hfuel.
  pose proof (get_active_services_loop_result fuel 0 [] s) as Hres.
  unfold bind, logging_info, emit.
  destruct (get_active_services_loop srv fuel 0 [] s) as [[r1 s1] e1].
  cbn [outcome events fst snd app] in *.
  split; [exact Hfuel |].
  intros services Hs. destruct (Hres services Hs) as [Heq Hcalls].
  cbn [app] in Heq. split; [exact Heq |]. split; [| exact Hcalls].
  rewrite Heq. intros Hin. apply filter_In in Hin.
  destruct Hin as [_ Hnw]. discriminate Hnw.
Qed.
End CatalogProofs.

(** ** The scheduler on concrete worlds *)

Section Scenarios.
Import Demo.


(** C3: listing the schedules of [svc-b] fails with an error envelope;
    [create_schedule] raises a [TypeError], the run of
    [process_services] ends with it and never reaches [svc-c]. *)
Theorem create_schedule_raises_type_error :
  outcome (get_schedules workspace (remote unlisted_schedules) "svc-b"
             0%nat) = Ok None
  /\ outcome (create_schedule cron workspace (remote unlisted_schedules)
                "svc-b" false 0%nat) = Raise TypeError
  /\ outcome (process_services cron workspace (remote unlisted_schedules)
                literal 0 (Some ["svc-b"; "svc-c"]) None false false 0%nat)
     = Raise TypeError
  /\ ~ In (Log INFO "Processing service: svc-c...")
         (events (process_services cron workspace
                    (remote unlisted_schedules) literal 0
                    (Some ["svc-b"; "svc-c"]) None false false 0%nat)).
Proof.
  split; [vm_compute; reflexivity |].
  split; [vm_compute; reflexivity |].
  split; [vm_compute; reflexivity |].
  vm_compute. intuition discriminate.
Qed.

(** C4: the only branch of [svc-a] is [develop]; the page of branches
    called main or master is empty and [get_default_branch] raises an
    [IndexError]. *)
Theorem get_default_branch_raises_index_error :
  text (fst (branches (remote no_default_branch) "svc-a" 0%nat))
  = Values [mkBranch "develop"]
  /\ outcome (get_default_branch workspace (remote no_default_branch)
                "svc-a" 0%nat) = Raise IndexError.
Proof. split; vm_compute; reflexivity. Qed.

(** C5, as stated, fails: in a dry run on a repository that already
    has the schedule, [create_schedule] has checked for it, logs the
    conflict and does not report the repository as eligible. *)
Lemma create_schedule_dry_run_checks_first :
  In already_exists
     (events (create_schedule cron workspace (remote already_scheduled)
                "svc-d" true 0%nat))
  /\ ~ In (eligible_for_scheduling "svc-d")
         (events (create_schedule cron workspace (remote already_scheduled)
                    "svc-d" true 0%nat)).
Proof. vm_compute. intuition discriminate. Qed.

Lemma create_schedule_checks_before_dry_run_witness :
  outcome (get_default_branch workspace (remote quiet) "svc-d" 0%nat)
  = Ok (Some "main")
  /\ outcome (get_schedules workspace (remote quiet) "svc-d" 0%nat)
     = Ok (Some [])
  /\ In (eligible_for_scheduling "svc-d")
       (events (create_schedule cron workspace (remote quiet) "svc-d"
                  true 0%nat)).
Proof.
  assert (Hdb :
    outcome (get_default_branch workspace (remote quiet) "svc-d" 0%nat)
    = Ok (Some "main")) by (vm_compute; reflexivity).
  assert (Hl :
    outcome (get_schedules workspace (remote quiet) "svc-d"
               (final (get_default_branch workspace (remote quiet) "svc-d"
                         0%nat)))
    = Ok (Some [])) by (vm_compute; reflexivity).
  split; [exact Hdb |]. split; [vm_compute; reflexivity |].
  pose proof (proj2 (create_schedule_checks_before_dry_run cron workspace
                       (remote quiet) "svc-d" 0%nat)
                (Some "main") [] Hdb Hl) as H.
  cbn [existsb] in H. exact (proj1 (proj2 H)).
Defined.

(** C6: the [IndexError] of [get_default_branch] goes through
    [delete_schedule].  [svc-a] has no main or master branch and no
    schedule at all, so no schedule matches; in development, it gets
    [delete_schedule], which sends nothing and raises, and the run ends
    there. *)
Theorem delete_schedule_raises_index_error :
  outcome (get_schedules workspace (remote no_default_branch) "svc-a"
             0%nat) = Ok (Some [])
  /\ mutations (events (delete_schedule cron workspace
                          (remote no_default_branch) "svc-a" false 0%nat))
     = []
  /\ outcome (delete_schedule cron workspace (remote no_default_branch)
                "svc-a" false 0%nat) = Raise IndexError
  /\ outcome (process_services cron workspace (remote no_default_branch)
                literal 0 (Some ["svc-a"; "svc-b"]) None false false 0%nat)
     = Raise IndexError.
Proof. repeat split; vm_compute; reflexivity. Qed.

Lemma match_override_search_witness :
  Forall (compiles literal) ["svc-z"; "vc-a"]
  /\ match_override literal "svc-a" ["svc-z"; "vc-a"] = Ok true.
Proof.
  assert (Hall : Forall (compiles literal) ["svc-z"; "vc-a"])
    by (repeat constructor; discriminate).
  split; [exact Hall |].
  destruct (proj1 (match_override_search literal "svc-a" _ Hall))
    as [b [Hb Hiff]].
  rewrite Hb. f_equal. apply Hiff.
  exists "vc-a", "vc-a".
  split; [right; left; reflexivity |].
  split; vm_compute; reflexivity.
Defined.

Lemma active_services_enumeration_witness :
  truthy (Some (@nil string)) = false
  /\ (length (pages_seen (remote quiet) 5 0 0%nat) < 5)%nat
  /\ outcome (active_services (remote quiet) 5 (Some []) 0%nat)
     = Ok ["svc-a"; "svc-b"].
Proof.
  assert (Hlen : (length (pages_seen (remote quiet) 5 0 0%nat) < 5)%nat)
    by (vm_compute; lia).
  split; [reflexivity |]. split; [exact Hlen |].
  destruct (proj2 (active_services_enumeration (remote quiet) 5 0%nat)
              (Some []) eq_refl) as [Hfuel Hres].
  specialize (Hfuel Hlen).
  destruct (outcome (active_services (remote quiet) 5 (Some []) 0%nat))
    as [services | e |] eqn:Hout.
  - f_equal. rewrite (proj1 (Hres services eq_refl)).
    vm_compute. reflexivity.
  - vm_compute in Hout. discriminate Hout.
  - contradiction.
Defined.
End Scenarios.

(** * More of the code *)

(** ** The classifier and the world *)

Section ClassifierWorld.
Variable srv : Remote.

(** One iteration of the loop, with the state and the events. *)
Lemma loop_cons_run (test : bool) (p : pipeline) (rest : list pipeline)
    (n : nat) (s : state srv) :
  check_development_status_loop srv test (p :: rest) n s
  = match creation_date p with
    | None => (Raise ValueError, s, [])
    | Some d =>
        let '(t, s') := utcnow srv s in
        if t - d <=? recent test then
          if negb (trigger_name p =? "SCHEDULE")%string
             || (1 <? Datatypes.S n)%nat
          then (Ok true, s', [in_development_log])
          else check_development_status_loop srv test rest
                 (Datatypes.S n) s'
        else check_development_status_loop srv test rest n s'
    end.
Proof.
  cbn [check_development_status_loop].
  unfold bind at 1, lift at 1.
  destruct (creation_date p) as [d |]; [| reflexivity].
  unfold bind at 1, datetime_now.
  destruct (utcnow srv s) as [t s'].
  destruct (t - d <=? recent test).
  - destruct (negb (trigger_name p =? "SCHEDULE")%string || _).
    + reflexivity.
    + destruct (check_development_status_loop srv test rest
                  (Datatypes.S n) s') as [[r s2] e2].
      reflexivity.
  - destruct (check_development_status_loop srv test rest n s')
      as [[r s2] e2].
    reflexivity.
Qed.

Lemma loop_short_circuit (test : bool) (E1 : list pipeline) :
  forall (n : nat) (s : state srv),
    outcome (check_development_status_loop srv test E1 n s) = Ok true ->
    forall E2,
      check_development_status_loop srv test (E1 ++ E2) n s
      = check_development_status_loop srv test E1 n s.
Proof.
  induction E1 as [| p rest IH]; intros n s Htrue E2.
  - discriminate Htrue.
  - cbn [app]. rewrite !loop_cons_run. rewrite loop_cons_run in Htrue.
    destruct (creation_date p) as [d |]; [| reflexivity].
    destruct (utcnow srv s) as [t s'].
    destruct (t - d <=? recent test).
    + destruct (negb (trigger_name p =? "SCHEDULE")%string || _);
        [reflexivity | apply IH, Htrue].
    + apply IH, Htrue.
Qed.

(** X1.  Once a history is judged in development, whatever comes after it is
    not looked at: the same history followed by any pipelines, with
    timestamps that parse or not, gives the same verdict, leaves the
    clock where it was and logs the same lines. *)
Theorem check_development_status_short_circuit (E1 E2 : list pipeline)
    (test : bool) (s : state srv) :
  outcome (check_development_status srv E1 test s) = Ok true ->
  check_development_status srv (E1 ++ E2) test s
  = check_development_status srv E1 test s.
Proof.
  intros Htrue. rewrite check_development_status_outcome in Htrue.
  unfold check_development_status, bind.
  cbn [logging_debug emit].
  rewrite (loop_short_circuit test E1 0 s Htrue E2). reflexivity.
Qed.

Lemma within_window_grows (x : Z * pipeline) :
  within true x = true -> within false x = true.
Proof.
  unfold within. destruct (creation_date (snd x)) as [d |]; [| discriminate].
  rewrite !Z.leb_le. unfold recent, timedelta_minutes, timedelta_weeks. lia.
Qed.

Lemma count_recent_grows (xs : list (Z * pipeline)) :
  (count_recent true xs <= count_recent false xs)%nat.
Proof.
  unfold count_recent. induction xs as [| x xs IH]; cbn [filter].
  - lia.
  - destruct (within true x) eqn:Hw.
    + rewrite (within_window_grows x Hw). cbn [length]. lia.
    + destruct (within false x); cbn [length]; lia.
Qed.

(** X2.  The window of [test] is inside the window of a week: a history with
    timestamps that parse and judged in development under [test] is
    judged in development without it, from the same state of the
    world. *)
Theorem check_development_status_test_implies_week (E : list pipeline)
    (s : state srv) :
  Forall well_formed E ->
  outcome (check_development_status srv E true s) = Ok true ->
  outcome (check_development_status srv E false s) = Ok true.
Proof.
  intros Hwf. rewrite !check_development_status_outcome.
  rewrite !(loop_verdict srv _ E Hwf). intros H.
  assert (Hv : verdict_from 0 true (examined srv s E) = true)
    by (injection H; trivial).
  clear H. f_equal.
  apply verdict_from_0 in Hv. apply verdict_from_0.
  destruct Hv as [H2 | [x [Hin [Hw Hs]]]].
  - left. pose proof (count_recent_grows (examined srv s E)). lia.
  - right. exists x. auto using within_window_grows.
Qed.

Lemma loop_world (test : bool) (E : list pipeline) :
  forall (n : nat) (s : state srv),
    let run := check_development_status_loop srv test E n s in
    (exists k, (k <= length E)%nat /\ final run = advance srv s k)
    /\ events run
       = match outcome run with
         | Ok true => [in_development_log]
         | Ok false => [not_in_development_log]
         | _ => []
         end.
Proof.
  induction E as [| p rest IH]; intros n s; cbv zeta.
  - split; [exists 0%nat; split; [cbn; lia | reflexivity] | reflexivity].
  - rewrite loop_cons_run.
    destruct (creation_date p) as [d |];
      [| split; [exists 0%nat; split; [cbn; lia | reflexivity]
                | reflexivity]].
    assert (Hnext : forall m,
      let run := check_development_status_loop srv test rest m
                   (snd (utcnow srv s)) in
      (exists k, (k <= length (p :: rest))%nat
                 /\ final run = advance srv s k)
      /\ events run
         = match outcome run with
           | Ok true => [in_development_log]
           | Ok false => [not_in_development_log]
           | _ => []
           end).
    { intros m. destruct (IH m (snd (utcnow srv s))) as [[k [Hk Hf]] He].
      split; [| exact He].
      exists (Datatypes.S k). split; [cbn [length]; lia | exact Hf]. }
    destruct (utcnow srv s) as [t s'] eqn:Ht. cbn [snd] in Hnext.
    destruct (t - d <=? recent test); [| apply Hnext].
    destruct (negb (trigger_name p =? "SCHEDULE")%string || _);
      [| apply Hnext].
    split; [| reflexivity].
    exists 1%nat. split; [cbn [length]; lia |].
    cbn [final fst snd advance]. rewrite Ht. reflexivity.
Qed.

(** X3.  All [check_development_status] does to the world is to read the
    clock, at most once per pipeline; and its log tells its result: the
    opening line, then "in development" when it returns true, "not in
    development" when it returns false, and nothing more when it
    raises. *)
Theorem check_development_status_world (E : list pipeline) (test : bool)
    (s : state srv) :
  let run := check_development_status srv E test s in
  (exists k, (k <= length E)%nat /\ final run = advance srv s k)
  /\ events run
     = Log DEBUG "Checking development status..."
       :: match outcome run with
          | Ok true => [in_development_log]
          | Ok false => [not_in_development_log]
          | _ => []
          end.
Proof.
  cbv zeta. rewrite check_development_status_outcome.
  destruct (loop_world test E 0 s) as [Hk He].
  unfold check_development_status, bind. cbn [logging_debug emit].
  destruct (check_development_status_loop srv test E 0 s) as [[r s'] e].
  cbn [outcome final events fst snd app] in *.
  split; [exact Hk |]. rewrite He. reflexivity.
Qed.
End ClassifierWorld.

Lemma check_development_status_short_circuit_witness :
  outcome (check_development_status (Demo.remote Demo.quiet)
             [Demo.push_yesterday] false 0%nat) = Ok true
  /\ outcome (check_development_status (Demo.remote Demo.quiet)
                ([Demo.push_yesterday] ++ [Demo.no_fraction]) false 0%nat)
     = Ok true.
Proof.
  assert (H : outcome (check_development_status (Demo.remote Demo.quiet)
                         [Demo.push_yesterday] false 0%nat) = Ok true)
    by (vm_compute; reflexivity).
  split; [exact H |].
  rewrite (check_development_status_short_circuit (Demo.remote Demo.quiet)
             [Demo.push_yesterday] [Demo.no_fraction] false 0%nat H).
  exact H.
Defined.

Lemma check_development_status_test_implies_week_witness :
  Forall well_formed [Demo.push_just_now]
  /\ outcome (check_development_status (Demo.remote Demo.quiet)
                [Demo.push_just_now] true 0%nat) = Ok true
  /\ outcome (check_development_status (Demo.remote Demo.quiet)
                [Demo.push_just_now] false 0%nat) = Ok true.
Proof.
  assert (Hwf : Forall well_formed [Demo.push_just_now]).
  { repeat constructor. unfold well_formed. vm_compute. discriminate. }
  assert (H : outcome (check_development_status (Demo.remote Demo.quiet)
                         [Demo.push_just_now] true 0%nat) = Ok true)
    by (vm_compute; reflexivity).
  split; [exact Hwf |]. split; [exact H |].
  exact (check_development_status_test_implies_week (Demo.remote Demo.quiet)
           [Demo.push_just_now] 0%nat Hwf H).
Defined.

(** ** The readers, request by request *)

Section ReaderContracts.
Variable WORKSPACE : string.
Variable srv : Remote.

(** X4.  [get_default_branch] sends one GET and nothing else.  It answers
    the first branch of the page called main or master; nothing, with
    one error line, on an error envelope or a body that is not JSON; and
    it raises an [IndexError], without a line in the log, when the page
    has no such branch. *)
Theorem get_default_branch_contract (repo_slug : string) (s : state srv) :
  let r := fst (branches srv repo_slug s) in
  let run := get_default_branch WORKSPACE srv repo_slug s in
  outcome run
  = match text r with
    | Values bs =>
        match find (fun b => existsb (String.eqb (name b))
                               ["main"; "master"]) bs with
        | Some b => Ok (Some (name b))
        | None => Raise IndexError
        end
    | _ => Ok None
    end
  /\ requests (events run)
     = [Request GET (repositories_url WORKSPACE repo_slug
                     ++ "/refs/branches/")]
  /\ length (filter is_error_log (events run))
     = match text r with
       | Values _ => 0%nat
       | _ => 1%nat
       end
  /\ final run = snd (branches srv repo_slug s).
Proof.
  cbv zeta. rewrite get_default_branch_run.
  destruct (branches srv repo_slug s) as [[t sc rs] s'].
  destruct t as [| message | bs]; cbn [text fst snd];
    try (repeat split; reflexivity).
  assert (Hfind : forall l : list branch,
    match filter (fun b => existsb (String.eqb (name b)) ["main"; "master"])
            l with
    | [] => None
    | b :: _ => Some b
    end = find (fun b => existsb (String.eqb (name b)) ["main"; "master"]) l).
  { induction l as [| b l IH]; cbn [filter find]; [reflexivity |].
    destruct (existsb (String.eqb (name b)) ["main"; "master"]);
      [reflexivity | exact IH]. }
  rewrite <- Hfind.
  destruct (filter _ bs) as [| b rest]; repeat split; reflexivity.
Qed.

(** X5.  [get_schedules] and [get_latest_pipelines], by the shape of
    the body of the response.  On a page of values each hands back the
    list, empty or not, and logs no error.  On an error envelope each
    hands back nothing and logs the message of the envelope; on a body
    that is not JSON each hands back nothing and logs the reason phrase
    of the response.  In each of the three cases the only request is
    one GET, and the world is left as the request left it. *)
Theorem readers_contract (repo_slug : string) (s : state srv) :
  (let r := fst (schedules srv repo_slug s) in
   let run := get_schedules WORKSPACE srv repo_slug s in
   match text r with
   | Values l =>
       outcome run = Ok (Some l)
       /\ filter is_error_log (events run) = []
   | ErrorEnvelope message =>
       outcome run = Ok None
       /\ filter is_error_log (events run)
          = [Log ERROR ("Failed to retrieve scheduled pipelines: "
                        ++ message)]
   | NotJson =>
       outcome run = Ok None
       /\ filter is_error_log (events run)
          = [Log ERROR ("Failed to retrieve scheduled pipelines: "
                        ++ reason r)]
   end
   /\ requests (events run)
      = [Request GET (repositories_url WORKSPACE repo_slug
                      ++ "/pipelines_config/schedules")]
   /\ final run = snd (schedules srv repo_slug s))
  /\ (let r := fst (pipelines srv repo_slug s) in
      let run := get_latest_pipelines WORKSPACE srv repo_slug s in
      match text r with
      | Values l =>
          outcome run = Ok (Some l)
          /\ filter is_error_log (events run) = []
      | ErrorEnvelope message =>
          outcome run = Ok None
          /\ filter is_error_log (events run)
             = [Log ERROR ("Failed to get latest pipelines: " ++ message)]
      | NotJson =>
          outcome run = Ok None
          /\ filter is_error_log (events run)
             = [Log ERROR ("Failed to get latest pipelines: " ++ reason r)]
      end
      /\ requests (events run)
         = [Request GET (repositories_url WORKSPACE repo_slug
                         ++ "/pipelines")]
      /\ final run = snd (pipelines srv repo_slug s)).
Proof.
  cbv zeta. rewrite get_schedules_run, get_latest_pipelines_run.
  destruct (schedules srv repo_slug s) as [[t1 sc1 rs1] s1].
  destruct (pipelines srv repo_slug s) as [[t2 sc2 rs2] s2].
  destruct t1, t2; cbn [text reason fst snd]; repeat split; reflexivity.
Qed.
End ReaderContracts.

(** ** The schedule repository, case by case *)

(** Unfold the two lookups down to the responses they get. *)
Ltac lookup_cases srv repo_slug s :=
  rewrite get_default_branch_run;
  let t1 := fresh "t" in let s1 := fresh "s" in
  destruct (branches srv repo_slug s) as [[t1 ? ?] s1];
  destruct t1 as [| ? | ?]; cbn [text reason];
  [| | match goal with
       | |- context [filter ?f ?bs] => destruct (filter f bs) as [| ? ?]
       end];
  cbn [outcome final events fst snd];
  try (rewrite get_schedules_run;
       let t2 := fresh "t" in
       destruct (schedules srv repo_slug s1) as [[t2 ? ?] ?];
       destruct t2 as [| ? | ?]);
  cbn [text reason outcome final events fst snd].

Ltac absent_from_events :=
  cbn [app In]; intros Hin;
  repeat (destruct Hin as [Hin | Hin]; [cbn in Hin; discriminate Hin |]);
  contradiction.

Section ScheduleContracts.
Variables SCHEDULE WORKSPACE : string.
Variable srv : Remote.

Local Abbreviation get_default_branch' := (get_default_branch WORKSPACE srv).
Local Abbreviation get_schedules' := (get_schedules WORKSPACE srv).
Local Abbreviation create_schedule' :=
  (create_schedule SCHEDULE WORKSPACE srv).
Local Abbreviation delete_schedule' :=
  (delete_schedule SCHEDULE WORKSPACE srv).

Lemma delete_schedule_dry_run_no_mutation (repo_slug : string)
    (s : state srv) :
  mutations (events (delete_schedule' repo_slug true s)) = [].
Proof.
  rewrite delete_schedule_run. lookup_cases srv repo_slug s; reflexivity.
Qed.

Lemma create_schedule_one_mutation (repo_slug : string) (dry_run : bool)
    (s : state srv) :
  let evs := events (create_schedule' repo_slug dry_run s) in
  mutations evs = [] \/ mutations evs = [post_request WORKSPACE repo_slug].
Proof.
  cbv zeta. rewrite create_schedule_run.
  lookup_cases srv repo_slug s; try (left; reflexivity);
    match goal with
    | |- context [existsb ?f ?l] => destruct (existsb f l)
    end;
    try (left; reflexivity);
    destruct dry_run; try (left; reflexivity);
    match goal with
    | |- context [post_schedule srv ?a ?b ?c] =>
        let t3 := fresh "t" in
        destruct (post_schedule srv a b c) as [[t3 ? ?] ?]; destruct t3
    end;
    right; reflexivity.
Qed.

Lemma delete_schedule_one_mutation (repo_slug : string) (dry_run : bool)
    (s : state srv) :
  (length (mutations (events (delete_schedule' repo_slug dry_run s))) <= 1)%nat.
Proof.
  rewrite delete_schedule_run.
  lookup_cases srv repo_slug s; try (cbn; lia);
    destruct dry_run; try (cbn; lia);
    rewrite delete_schedule_loop_run;
    match goal with
    | |- context [find ?f ?l] => destruct (find f l) as [sch |]
    end;
    try (cbn; lia);
    match goal with
    | |- context [delete_schedule_uuid srv ?a ?b ?c] =>
        let t3 := fresh "t" in let sc := fresh "sc" in
        destruct (delete_schedule_uuid srv a b c) as [[t3 sc ?] ?];
        destruct t3 as [| ? | ?]; cbn [text status_code reason];
        [ destruct (negb (sc =? 204)) | | ]
    end;
    cbn; lia.
Qed.

(** X6.  A dry run of [delete_schedule] sends no request that changes the
    schedules.  Once the default branch is resolved and the schedules
    are listed, it reports the repository as eligible for deletion
    without looking for a schedule to delete: the list may as well be
    empty. *)
Theorem delete_schedule_dry_run (repo_slug : string) (s : state srv) :
  let run := delete_schedule' repo_slug true s in
  mutations (events run) = []
  /\ forall default_branch l,
       outcome (get_default_branch' repo_slug s) = Ok default_branch ->
       outcome (get_schedules' repo_slug
                  (final (get_default_branch' repo_slug s))) = Ok (Some l) ->
       outcome run = Ok tt
       /\ In (eligible_for_deletion repo_slug) (events run)
       /\ ~ In (deleted_log repo_slug) (events run).
Proof.
  cbv zeta. rewrite delete_schedule_run.
  lookup_cases srv repo_slug s;
    (split; [reflexivity |]); intros db l' Hdb Hl;
    try discriminate Hdb; try discriminate Hl;
    (split; [reflexivity |]);
    (split; [cbn; tauto | absent_from_events]).
Qed.

(** X7.  When listing the schedules failed, [delete_schedule] gives up
    without any request that changes them and returns normally; what
    it logs is an error line, which in a dry run is empty. *)
Theorem delete_schedule_without_list (repo_slug : string) (dry_run : bool)
    (s : state srv) (default_branch : option string) :
  outcome (get_default_branch' repo_slug s) = Ok default_branch ->
  outcome (get_schedules' repo_slug
             (final (get_default_branch' repo_slug s))) = Ok None ->
  let run := delete_schedule' repo_slug dry_run s in
  outcome run = Ok tt
  /\ mutations (events run) = []
  /\ In (Log ERROR (if dry_run then ""
                    else "Failed to delete scheduled pipeline."))
        (events run)
  /\ ~ In (deleted_log repo_slug) (events run).
Proof.
  cbv zeta. rewrite delete_schedule_run. revert default_branch.
  lookup_cases srv repo_slug s; intros db Hdb Hl;
    try discriminate Hdb; try discriminate Hl;
    (split; [reflexivity |]); (split; [reflexivity |]);
    (split; [destruct dry_run; cbn; tauto | absent_from_events]).
Qed.

(** X8.  Without a dry run, once both lookups returned with a list:
    [delete_schedule] closes with "Scheduled pipeline deleted" when no
    schedule matched, so when nothing was deleted, and when the one
    deletion it asked for was not answered by a failure; it does not
    when that deletion failed. *)
Theorem delete_schedule_deleted_log (repo_slug : string) (s : state srv)
    (default_branch : option string) (l : list schedule) :
  outcome (get_default_branch' repo_slug s) = Ok default_branch ->
  outcome (get_schedules' repo_slug
             (final (get_default_branch' repo_slug s))) = Ok (Some l) ->
  let s2 := final (get_schedules' repo_slug
                     (final (get_default_branch' repo_slug s))) in
  let run := delete_schedule' repo_slug false s in
  outcome run = Ok tt
  /\ (In (deleted_log repo_slug) (events run)
      <-> match find (targets_default SCHEDULE default_branch) l with
          | None => True
          | Some sch =>
              delete_failed
                (fst (delete_schedule_uuid srv repo_slug (uuid sch) s2))
              = false
          end).
Proof.
  cbv zeta. rewrite delete_schedule_run. revert default_branch l.
  lookup_cases srv repo_slug s; intros db l' Hdb Hl;
    try discriminate Hdb; try discriminate Hl;
    inversion Hdb; inversion Hl; subst;
    rewrite delete_schedule_loop_run;
    (destruct (find (targets_default SCHEDULE _) l') as [sch |];
     [ match goal with
       | |- context [delete_schedule_uuid srv ?a ?b ?c] =>
           let t3 := fresh "t" in let sc := fresh "sc" in
           destruct (delete_schedule_uuid srv a b c) as [[t3 sc ?] ?];
           unfold delete_failed;
           destruct t3 as [| ? | ?]; cbn [text status_code reason fst];
           [ destruct (negb (sc =? 204)) | | ]
       end
     | ]);
    cbn [outcome events fst snd];
    (split; [reflexivity |]);
    (split; [intros Hin | intros Hok]);
    try reflexivity; try discriminate Hok; try (cbn; tauto);
    exfalso; revert Hin; absent_from_events.
Qed.


Lemma create_schedule_real_run (repo_slug : string) (s : state srv)
    (default_branch : option string) (l : list schedule) :
  outcome (get_default_branch' repo_slug s) = Ok default_branch ->
  outcome (get_schedules' repo_slug
             (final (get_default_branch' repo_slug s))) = Ok (Some l) ->
  existsb (targets_default SCHEDULE default_branch) l = false ->
  let s2 := final (get_schedules' repo_slug
                     (final (get_default_branch' repo_slug s))) in
  let run := create_schedule' repo_slug false s in
  outcome run = Ok tt
  /\ mutations (events run) = [post_request WORKSPACE repo_slug]
  /\ final run
     = snd (post_schedule srv repo_slug
              (mkPayload default_branch default_branch true SCHEDULE) s2).
Proof.
  cbv zeta. rewrite create_schedule_run. revert default_branch l.
  lookup_cases srv repo_slug s; intros db l' Hdb Hl Hex;
    try discriminate Hdb; try discriminate Hl;
    inversion Hdb; inversion Hl; subst; rewrite Hex;
    match goal with
    | |- context [post_schedule srv ?a ?b ?c] =>
        let t3 := fresh "t" in
        destruct (post_schedule srv a b c) as [[t3 ? ?] ?]; destruct t3
    end;
    repeat split; reflexivity.
Qed.

(** X9.  Without a dry run and without a schedule that matches, once both
    lookups returned with a list: [create_schedule] sends one POST to
    the schedules of the repository, for the fixed cron pattern on the
    default branch, enabled, and nothing else that changes the
    schedules; it returns normally whatever the answer to the POST. *)
Theorem create_schedule_posts (repo_slug : string) (s : state srv)
    (default_branch : option string) (l : list schedule) :
  outcome (get_default_branch' repo_slug s) = Ok default_branch ->
  outcome (get_schedules' repo_slug
             (final (get_default_branch' repo_slug s))) = Ok (Some l) ->
  existsb (targets_default SCHEDULE default_branch) l = false ->
  let s2 := final (get_schedules' repo_slug
                     (final (get_default_branch' repo_slug s))) in
  let run := create_schedule' repo_slug false s in
  outcome run = Ok tt
  /\ mutations (events run) = [post_request WORKSPACE repo_slug]
  /\ final run
     = snd (post_schedule srv repo_slug
              (mkPayload default_branch default_branch true SCHEDULE) s2).
Proof. apply create_schedule_real_run. Qed.

(** X10.  [create_schedule] does not look at what the default-branch lookup
    gave.  When that lookup failed and the schedules are listed, no
    schedule can match: a dry run reports the repository as eligible,
    and a real run posts a schedule whose target branch is null. *)
Theorem create_schedule_absent_default_branch (repo_slug : string)
    (s : state srv) (l : list schedule) :
  outcome (get_default_branch' repo_slug s) = Ok None ->
  outcome (get_schedules' repo_slug
             (final (get_default_branch' repo_slug s))) = Ok (Some l) ->
  let s2 := final (get_schedules' repo_slug
                     (final (get_default_branch' repo_slug s))) in
  In (eligible_for_scheduling repo_slug)
     (events (create_schedule' repo_slug true s))
  /\ mutations (events (create_schedule' repo_slug false s))
     = [post_request WORKSPACE repo_slug]
  /\ final (create_schedule' repo_slug false s)
     = snd (post_schedule srv repo_slug (mkPayload None None true SCHEDULE)
              s2).
Proof.
  intros Hdb Hl.
  assert (Hall : forall l' : list schedule,
             existsb (targets_default SCHEDULE None) l' = false).
  { induction l' as [| sch l' IH]; cbn [existsb]; [reflexivity |].
    rewrite IH. unfold targets_default. now rewrite andb_false_r. }
  pose proof (Hall l) as Hex.
  cbv zeta. split.
  - apply (create_schedule_dry_run_eligible SCHEDULE WORKSPACE srv
             repo_slug s None l Hdb Hl Hex).
  - destruct (create_schedule_real_run repo_slug s None l Hdb Hl Hex)
      as [_ [Hm Hf]].
    split; assumption.
Qed.

(** X11.  Whatever the responses, [create_schedule] sends at most one request
    that changes the schedules, and it is the POST to the schedules of
    the repository. *)
Theorem create_schedule_mutations (repo_slug : string) (dry_run : bool)
    (s : state srv) :
  let evs := events (create_schedule' repo_slug dry_run s) in
  mutations evs = [] \/ mutations evs = [post_request WORKSPACE repo_slug].
Proof. apply create_schedule_one_mutation. Qed.
End ScheduleContracts.

(** ** A whole run *)

Section RunContracts.
Variables SCHEDULE WORKSPACE : string.
Variable srv : Remote.
Variable re : Regex.

Local Abbreviation process_service' :=
  (process_service SCHEDULE WORKSPACE srv re).
Local Abbreviation process_services_loop' :=
  (process_services_loop SCHEDULE WORKSPACE srv re).
Local Abbreviation process_services' :=
  (process_services SCHEDULE WORKSPACE srv re).

(** The requests that change the schedules, for one repository: those
    of the call to [create_schedule] or [delete_schedule], if any. *)
Lemma process_service_mutations (override : option (list string))
    (dry_run test : bool) (service : string) (s : state srv) :
  exists (s2 : state srv) (evs : list event),
    mutations (events (process_service' override dry_run test service s))
    = mutations evs
    /\ (evs = []
        \/ evs = events (create_schedule SCHEDULE WORKSPACE srv service
                           dry_run s2)
        \/ evs = events (delete_schedule SCHEDULE WORKSPACE srv service
                           dry_run s2)).
Proof.
  rewrite process_service_run.
  destruct (excluded re override service) as [[|] | e |];
    try (exists s, []; split; [reflexivity | left; reflexivity]).
  generalize (get_latest_pipelines_passive WORKSPACE srv service s).
  destruct (get_latest_pipelines WORKSPACE srv service s) as [[r1 s1] e1].
  cbn [events snd]. intros P1. apply passive_no_mutation in P1.
  assert (Hpre : forall tl,
    mutations (Log INFO ("Processing service: " ++ service ++ "...")
               :: e1 ++ tl) = mutations tl).
  { intros tl.
    change (mutations (Log INFO ("Processing service: " ++ service ++ "...")
                       :: e1 ++ tl))
      with (mutations (e1 ++ tl)).
    now rewrite mutations_app, P1. }
  destruct r1 as [[[| p ps] |] | e |];
    try (exists s, []; cbn [events snd];
         first [rewrite Hpre | rewrite <- (app_nil_r e1), Hpre];
         split; [reflexivity | left; reflexivity]).
  generalize (check_development_status_passive srv (p :: ps) test s1).
  destruct (check_development_status srv (p :: ps) test s1) as [[r2 s2] e2].
  cbn [events snd]. intros P2. apply passive_no_mutation in P2.
  destruct r2 as [b | e |];
    try (exists s, []; cbn [events snd]; rewrite Hpre, <- (app_nil_r e2);
         rewrite mutations_app, P2;
         split; [reflexivity | left; reflexivity]).
  exists s2. destruct b; cbn [negb].
  - exists (events (delete_schedule SCHEDULE WORKSPACE srv service dry_run
                      s2)).
    destruct (delete_schedule SCHEDULE WORKSPACE srv service dry_run s2)
      as [[r3 s3] e3].
    cbn [events snd]. rewrite Hpre, mutations_app, P2.
    split; [reflexivity | right; right; reflexivity].
  - exists (events (create_schedule SCHEDULE WORKSPACE srv service dry_run
                      s2)).
    destruct (create_schedule SCHEDULE WORKSPACE srv service dry_run s2)
      as [[r3 s3] e3].
    cbn [events snd]. rewrite Hpre, mutations_app, P2.
    split; [reflexivity | right; left; reflexivity].
Qed.

Lemma process_service_one_mutation (override : option (list string))
    (dry_run test : bool) (service : string) (s : state srv) :
  (length (mutations
             (events (process_service' override dry_run test service s)))
   <= 1)%nat.
Proof.
  destruct (process_service_mutations override dry_run test service s)
    as [s2 [evs [-> [-> | [-> | ->]]]]].
  - cbn. lia.
  - destruct (create_schedule_one_mutation SCHEDULE WORKSPACE srv service
                dry_run s2) as [-> | ->]; cbn; lia.
  - apply delete_schedule_one_mutation.
Qed.

Lemma process_service_dry_run_no_mutation (override : option (list string))
    (test : bool) (service : string) (s : state srv) :
  mutations (events (process_service' override true test service s)) = [].
Proof.
  destruct (process_service_mutations override true test service s)
    as [s2 [evs [-> [-> | [-> | ->]]]]].
  - reflexivity.
  - apply create_schedule_dry_run_no_mutation.
  - apply delete_schedule_dry_run_no_mutation.
Qed.

Lemma process_services_loop_events (override : option (list string))
    (dry_run test : bool) (service : string) (rest : list string)
    (s : state srv) :
  let body := process_service' override dry_run test service s in
  events (process_services_loop' override dry_run test (service :: rest) s)
  = (events body
     ++ match outcome body with
        | Ok _ => events (process_services_loop' override dry_run test rest
                            (final body))
        | _ => []
        end)%list.
Proof.
  cbv zeta. cbn [process_services_loop]. run_bind. reflexivity.
Qed.

Lemma process_services_loop_bound (override : option (list string))
    (dry_run test : bool) (l : list string) :
  forall s : state srv,
    (length (mutations
               (events (process_services_loop' override dry_run test l s)))
     <= length l)%nat.
Proof.
  induction l as [| service rest IH]; intros s.
  - cbn. lia.
  - rewrite process_services_loop_events, mutations_app, length_app.
    pose proof (process_service_one_mutation override dry_run test service s).
    cbn [length].
    destruct (outcome (process_service' override dry_run test service s));
      [specialize (IH (final (process_service' override dry_run test
                                service s)))
      | cbn [mutations filter length] | cbn [mutations filter length]];
      lia.
Qed.

Lemma process_services_loop_dry_run (override : option (list string))
    (test : bool) (l : list string) :
  forall s : state srv,
    mutations (events (process_services_loop' override true test l s)) = [].
Proof.
  induction l as [| service rest IH]; intros s.
  - reflexivity.
  - rewrite process_services_loop_events, mutations_app.
    rewrite process_service_dry_run_no_mutation.
    destruct (outcome (process_service' override true test service s));
      [apply IH | reflexivity | reflexivity].
Qed.

Lemma get_active_services_loop_quiet (fuel : nat) :
  forall (page : nat) (acc : list string) (s : state srv),
    mutations (events (get_active_services_loop srv fuel page acc s)) = []
    /\ requests (events (get_active_services_loop srv fuel page acc s)) = [].
Proof.
  induction fuel as [| fuel IH]; intros page acc s.
  - split; reflexivity.
  - rewrite get_active_services_loop_step.
    destruct (list_service_definitions srv page s) as [[first | data] s1].
    + split; reflexivity.
    + destruct (collect_services data acc) as [acc' | e |];
        try (split; reflexivity).
      destruct data as [| sv data]; [split; reflexivity |].
      specialize (IH (Datatypes.S page) acc' s1).
      destruct (get_active_services_loop srv fuel (Datatypes.S page) acc' s1)
        as [[r s2] e2].
      exact IH.
Qed.

Lemma active_services_quiet (fuel : nat) (repositories : option (list string))
    (s : state srv) :
  mutations (events (active_services srv fuel repositories s)) = []
  /\ requests (events (active_services srv fuel repositories s)) = [].
Proof.
  assert (H : mutations (events (get_active_services srv fuel s)) = []
              /\ requests (events (get_active_services srv fuel s)) = []).
  { unfold get_active_services, bind. cbn [logging_info emit].
    pose proof (get_active_services_loop_quiet fuel 0 [] s) as Hq.
    destruct (get_active_services_loop srv fuel 0 [] s) as [[r s1] e1].
    exact Hq. }
  destruct repositories as [[| r rs] |]; try exact H.
  split; reflexivity.
Qed.

(** [process_services], as the events of its three parts. *)
Lemma process_services_events (fuel : nat)
    (repositories override : option (list string)) (dry_run test : bool)
    (s : state srv) :
  let listing := active_services srv fuel repositories s in
  exists closing,
    events (process_services' fuel repositories override dry_run test s)
    = (Log INFO "Processing services..."
       :: events listing
       ++ match outcome listing with
          | Ok l => events (process_services_loop' override dry_run test l
                              (final listing))
          | _ => []
          end
       ++ closing)%list
    /\ (closing = [] \/ closing = [Log INFO "Services processed."]).
Proof.
  cbv zeta. unfold process_services, bind. cbn [logging_info emit].
  destruct (active_services srv fuel repositories s) as [[[l | e |] s1] e1];
    cbn [outcome final events fst snd app];
    try (exists []; rewrite !app_nil_r; split; [reflexivity | left; reflexivity]).
  destruct (process_services_loop' override dry_run test l s1)
    as [[[[] | e |] s2] e2];
    cbn [outcome final events fst snd app];
    [ exists [Log INFO "Services processed."]
    | exists [] | exists [] ];
    rewrite ?app_nil_r; (split; [reflexivity | tauto]).
Qed.

Lemma process_services_dry_run_no_mutation (fuel : nat)
    (repositories override : option (list string)) (test : bool)
    (s : state srv) :
  mutations (events (process_services' fuel repositories override true test s))
  = [].
Proof.
  destruct (process_services_events fuel repositories override true test s)
    as [closing [-> Hc]].
  change (mutations (?x :: ?l)) with (mutations l).
  rewrite !mutations_app.
  rewrite (proj1 (active_services_quiet fuel repositories s)).
  assert (Hcl : mutations closing = [])
    by (destruct Hc as [-> | ->]; reflexivity).
  rewrite Hcl.
  destruct (outcome (active_services srv fuel repositories s));
    [rewrite process_services_loop_dry_run |..]; reflexivity.
Qed.

(** X12.  In a dry run, whatever the repositories, the override patterns, the
    catalog and the answers of Bitbucket, and whether the run returns or
    raises, [process_services] sends no request that changes a
    schedule. *)
Theorem process_services_dry_run (fuel : nat)
    (repositories override : option (list string)) (test : bool)
    (s : state srv) :
  mutations (events (process_services' fuel repositories override true test s))
  = [].
Proof. apply process_services_dry_run_no_mutation. Qed.

(** X13.  A run sends at most one request that changes a schedule per
    repository it has to process: never more of them than there are
    repositories in the list it works on. *)
Theorem process_services_mutations_bound (fuel : nat)
    (repositories override : option (list string)) (dry_run test : bool)
    (s : state srv) :
  (length (mutations
             (events (process_services' fuel repositories override dry_run
                        test s)))
   <= match outcome (active_services srv fuel repositories s) with
      | Ok l => length l
      | _ => 0
      end)%nat.
Proof.
  destruct (process_services_events fuel repositories override dry_run test s)
    as [closing [-> Hc]].
  change (mutations (?x :: ?l)) with (mutations l).
  rewrite !mutations_app, !length_app.
  rewrite (proj1 (active_services_quiet fuel repositories s)).
  assert (Hcl : mutations closing = [])
    by (destruct Hc as [-> | ->]; reflexivity).
  rewrite Hcl. cbn [length].
  destruct (outcome (active_services srv fuel repositories s)) as [l | e |];
    [pose proof (process_services_loop_bound override dry_run test l
                   (final (active_services srv fuel repositories s)))
    | cbn | cbn]; lia.
Qed.

(** X14.  When the override filter excludes every repository of the list, the
    loop returns normally without a single request and leaves the world
    as it found it. *)
Theorem process_services_loop_all_overridden (override : option (list string))
    (dry_run test : bool) (l : list string) (s : state srv) :
  Forall (fun service => excluded re override service = Ok true) l ->
  let run := process_services_loop' override dry_run test l s in
  outcome run = Ok tt
  /\ final run = s
  /\ requests (events run) = []
  /\ mutations (events run) = [].
Proof.
  intros Hall. cbv zeta. induction Hall as [| service rest Hex _ IH].
  - repeat split; reflexivity.
  - cbn [process_services_loop]. unfold bind.
    rewrite process_service_run, Hex. cbv beta iota zeta.
    destruct (process_services_loop' override dry_run test rest s)
      as [[r s1] e1].
    cbn [outcome final events fst snd] in *.
    destruct IH as [-> [-> [Hr Hm]]].
    repeat split; cbn [app]; unfold requests, mutations in *;
      cbn [filter is_request is_mutation]; assumption || reflexivity.
Qed.

(** X15.  A repository on which the processing raises ends the run: the
    repositories after it are not processed, and the run with them is
    the run without them. *)
Theorem process_services_loop_aborts (override : option (list string))
    (dry_run test : bool) (before : list string) (service : string)
    (after : list string) (e : exn) :
  forall s : state srv,
    outcome (process_services_loop' override dry_run test
               (before ++ [service]) s) = Raise e ->
    process_services_loop' override dry_run test
      (before ++ service :: after) s
    = process_services_loop' override dry_run test (before ++ [service]) s.
Proof.
  induction before as [| b before IH]; intros s;
    cbn [app process_services_loop]; unfold bind.
  - destruct (process_service' override dry_run test service s)
      as [[[[] | e' |] s1] e1]; cbn [ret outcome fst];
      try discriminate; reflexivity.
  - destruct (process_service' override dry_run test b s)
      as [[[[] | e' |] s1] e1]; try reflexivity.
    specialize (IH s1).
    change (process_services_loop SCHEDULE WORKSPACE srv re override dry_run
              test (before ++ service :: after) s1)
      with (process_services_loop' override dry_run test
              (before ++ service :: after) s1).
    destruct (process_services_loop' override dry_run test
                (before ++ [service]) s1) as [[r2 s2] e2] eqn:Hrun.
    cbn [outcome fst]. intros Hr. rewrite (IH Hr). reflexivity.
Qed.

(** X16.  An error of the catalog on its first page is not an error of the
    run: with no list of repositories from the caller, the run logs the
    error, processes nothing, sends nothing to Bitbucket and returns
    normally. *)
Theorem process_services_catalog_error (fuel : nat)
    (repositories override : option (list string)) (dry_run test : bool)
    (s s' : state srv) (first : string) :
  truthy repositories = false ->
  list_service_definitions srv 0 s = (CatalogErrors first, s') ->
  process_services' (Datatypes.S fuel) repositories override dry_run test s
  = (Ok tt, s',
     [Log INFO "Processing services...";
      Log INFO "Retrieving active services...";
      ListServiceDefinitions 0;
      Log ERROR first;
      Log INFO "Services processed."]).
Proof.
  intros Hfalsy Hpage.
  assert (Hrun : active_services srv (Datatypes.S fuel) repositories s
                 = get_active_services srv (Datatypes.S fuel) s)
    by (destruct repositories as [[| r rs] |];
        [reflexivity | discriminate Hfalsy | reflexivity]).
  unfold process_services, bind. cbn [logging_info emit]. rewrite Hrun.
  unfold get_active_services, bind. cbn [logging_info emit].
  rewrite get_active_services_loop_step, Hpage. reflexivity.
Qed.
End RunContracts.

(** ** More of the catalog client and of the override filter *)

Section CatalogContracts.
Variable srv : Remote.

Lemma url_component_4_cases (sv : service) :
  url_component_4 sv
  = if malformed sv then Raise IndexError
    else match rev (links sv) with
         | url :: _ =>
             match nth_error (split "/" url) 4 with
             | Some c => Ok c
             | None => Raise IndexError
             end
         | [] => Raise IndexError
         end.
Proof.
  unfold url_component_4, malformed, last_item, item.
  destruct (rev (links sv)) as [| url rest]; [reflexivity |].
  destruct (length (split "/" url) <=? 4)%nat eqn:Hlen; [| reflexivity].
  apply Nat.leb_le in Hlen.
  destruct (nth_error (split "/" url) 4) eqn:Hnth; [| reflexivity].
  assert (nth_error (split "/" url) 4 <> None) as Hsome by congruence.
  apply nth_error_Some in Hsome. lia.
Qed.

Lemma url_component_4_well_formed (sv : service) :
  malformed sv = false -> exists c, url_component_4 sv = Ok c.
Proof.
  intros Hm. rewrite url_component_4_cases, Hm.
  unfold malformed in Hm.
  destruct (rev (links sv)) as [| url rest]; [discriminate |].
  apply Nat.leb_gt in Hm.
  destruct (nth_error (split "/" url) 4) as [c |] eqn:Hnth;
    [exists c; reflexivity |].
  apply nth_error_None in Hnth. lia.
Qed.

Lemma collect_services_cases (data : list service) :
  forall acc,
    if existsb malformed data
    then collect_services data acc = Raise IndexError
    else exists acc', collect_services data acc = Ok acc'.
Proof.
  induction data as [| sv rest IH]; intros acc;
    cbn [existsb collect_services].
  - exists acc. reflexivity.
  - destruct (malformed sv) eqn:Hm; cbn [orb].
    + rewrite url_component_4_cases, Hm. reflexivity.
    + destruct (url_component_4_well_formed sv Hm) as [c ->].
      destruct (negb (c =? "workspace")%string); apply IH.
Qed.

(** X17.  A catalog entry without a link, or whose last link has fewer than
    five pieces between "/", makes [get_active_services] raise an
    [IndexError]: when the first page carries such an entry, the call
    raises after that one call to the catalog, and the repositories read
    before it on the page are lost with it. *)
Theorem get_active_services_malformed_entry (fuel : nat) (s s' : state srv)
    (data : list service) :
  list_service_definitions srv 0 s = (CatalogData data, s') ->
  existsb malformed data = true ->
  get_active_services srv (Datatypes.S fuel) s
  = (Raise IndexError, s',
     [Log INFO "Retrieving active services..."; ListServiceDefinitions 0]).
Proof.
  intros Hpage Hbad.
  unfold get_active_services, bind. cbn [logging_info emit].
  rewrite get_active_services_loop_step, Hpage.
  pose proof (collect_services_cases data []) as Hc. rewrite Hbad in Hc.
  rewrite Hc. reflexivity.
Qed.

(** X18.  The loop of [get_active_services] ends only on a page that is empty
    or in error: against a catalog that always answers with entries,
    all of them well formed, no number of iterations is enough. *)
Theorem get_active_services_needs_empty_page :
  (forall (page : nat) (s : state srv),
      exists sv data s',
        list_service_definitions srv page s = (CatalogData (sv :: data), s')
        /\ existsb malformed (sv :: data) = false) ->
  forall (fuel : nat) (s : state srv),
    outcome (get_active_services srv fuel s) = OutOfFuel.
Proof.
  intros Hcat fuel s.
  assert (Hloop : forall fuel page acc s,
             outcome (get_active_services_loop srv fuel page acc s)
             = OutOfFuel).
  { clear fuel s. induction fuel as [| fuel IH]; intros page acc s.
    - reflexivity.
    - rewrite get_active_services_loop_step.
      destruct (Hcat page s) as [sv [data [s' [-> Hok]]]].
      pose proof (collect_services_cases (sv :: data) acc) as Hc.
      rewrite Hok in Hc. destruct Hc as [acc' ->].
      specialize (IH (Datatypes.S page) acc' s').
      destruct (get_active_services_loop srv fuel (Datatypes.S page) acc' s')
        as [[r s2] e2].
      exact IH. }
  unfold get_active_services, bind. cbn [logging_info emit].
  specialize (Hloop fuel 0%nat (@nil string) s).
  destruct (get_active_services_loop srv fuel 0 [] s) as [[r s1] e1].
  exact Hloop.
Qed.
End CatalogContracts.

Lemma split_no_slash (a : string) :
  no_slash a = true -> split "/" a = [a].
Proof.
  induction a as [| c a IH]; cbn [no_slash split]; [reflexivity |].
  intros H. apply andb_true_iff in H. destruct H as [Hc Ha].
  apply negb_true_iff in Hc. rewrite Hc, (IH Ha). reflexivity.
Qed.

Lemma split_piece (a b : string) :
  no_slash a = true ->
  split "/" (a ++ String "/" b) = a :: split "/" b.
Proof.
  induction a as [| c a IH]; cbn [no_slash append split].
  - reflexivity.
  - intros H. apply andb_true_iff in H. destruct H as [Hc Ha].
    apply negb_true_iff in Hc. rewrite Hc, (IH Ha). reflexivity.
Qed.

(** X19.  The repository of a catalog entry is read off its last link: for a
    link https://bitbucket.org/W/R, followed or not by a path, with W
    and R free of "/", the piece that is read is R, whatever the links
    before it. *)
Theorem url_component_4_bitbucket (before : list string)
    (workspace repo_slug : string) (path : option string) :
  no_slash workspace = true ->
  no_slash repo_slug = true ->
  url_component_4
    (mkService
       (before
        ++ ["https://bitbucket.org/" ++ workspace ++ "/" ++ repo_slug
            ++ match path with
               | Some p => String "/" p
               | None => EmptyString
               end]))
  = Ok repo_slug.
Proof.
  intros Hw Hr. unfold url_component_4, last_item. cbn [links].
  rewrite rev_app_distr. cbn [rev app].
  change ("https://bitbucket.org/" ++ workspace ++ "/" ++ repo_slug
          ++ match path with
             | Some p => String "/" p
             | None => EmptyString
             end)
    with ("https:" ++ String "/"
            ("" ++ String "/"
               ("bitbucket.org" ++ String "/"
                  (workspace ++ String "/"
                     (repo_slug ++ match path with
                                   | Some p => String "/" p
                                   | None => EmptyString
                                   end))))).
  rewrite !split_piece by (reflexivity || assumption).
  destruct path as [p |].
  - rewrite split_piece by assumption. reflexivity.
  - assert (Hnil : repo_slug ++ "" = repo_slug)
      by (clear; induction repo_slug as [| c r IH]; cbn;
          [reflexivity | now rewrite IH]).
    rewrite Hnil, split_no_slash by assumption. reflexivity.
Qed.

Section OverrideContracts.
Variable re : Regex.

(** X20.  [match_override] goes through the patterns in order and stops at
    the first that is found or that does not compile: over two lists
    one after the other, the answer is that of the first list unless it
    is false, and then that of the second. *)
Theorem match_override_app (repo_slug : string) (first second : list string) :
  match_override re repo_slug (first ++ second)
  = match match_override re repo_slug first with
    | Ok false => match_override re repo_slug second
    | answer => answer
    end.
Proof.
  induction first as [| p first IH]; cbn [app match_override].
  - reflexivity.
  - destruct (compile re p) as [c |]; [| reflexivity].
    destruct (search re c repo_slug); [reflexivity | exact IH].
Qed.
End OverrideContracts.

(** ** The entry point *)

Section HandlerContracts.
Variables SCHEDULE WORKSPACE : string.
Variable srv : Remote.
Variable re : Regex.

Lemma mutations_emitted (verbose : bool) (evs : list event) :
  mutations (filter (emitted verbose) evs) = mutations evs.
Proof.
  unfold mutations. induction evs as [| e evs IH]; cbn [filter].
  - reflexivity.
  - destruct e as [[| |] msg | m url | page]; cbn [emitted is_mutation filter];
      try destruct verbose; cbn [filter is_mutation]; try exact IH;
      now rewrite IH.
Qed.

(** X21.  The events [lambda_handler] lets through are those of
    [process_services] with the flags of the event, a missing flag
    being false; without [verbose] no DEBUG line is among them.  The
    requests that change a schedule do not depend on [verbose], and
    there is none when [dry_run] is set. *)
Theorem lambda_handler_contract (fuel : nat) (event : invocation)
    (s : state srv) :
  let run := lambda_handler SCHEDULE WORKSPACE srv re fuel event s in
  let base :=
    process_services SCHEDULE WORKSPACE srv re fuel
      (event_repositories event) (event_override event)
      (get_or (event_dry_run event) false)
      (get_or (event_test event) false) s in
  outcome run = outcome base
  /\ final run = final base
  /\ mutations (events run) = mutations (events base)
  /\ (get_or (event_verbose event) false = false ->
      forall msg, ~ In (Log DEBUG msg) (events run))
  /\ (event_dry_run event = Some true -> mutations (events run) = []).
Proof.
  cbv zeta. unfold lambda_handler.
  assert (Hdry :
    event_dry_run event = Some true ->
    mutations
      (events (process_services SCHEDULE WORKSPACE srv re fuel
                 (event_repositories event) (event_override event)
                 (get_or (event_dry_run event) false)
                 (get_or (event_test event) false) s)) = []).
  { intros Hd. rewrite Hd. apply process_services_dry_run_no_mutation. }
  destruct (process_services SCHEDULE WORKSPACE srv re fuel
              (event_repositories event) (event_override event)
              (get_or (event_dry_run event) false)
              (get_or (event_test event) false) s) as [[r s'] evs].
  cbn [outcome final events fst snd] in *.
  split; [reflexivity |]. split; [reflexivity |].
  split; [apply mutations_emitted |].
  split.
  - intros Hv msg Hin. rewrite Hv in Hin. apply filter_In in Hin.
    destruct Hin as [_ Hin]. discriminate Hin.
  - intros Hd. rewrite mutations_emitted. exact (Hdry Hd).
Qed.
End HandlerContracts.

(** ** More concrete runs *)

Section MoreScenarios.
Import Demo.

Lemma delete_schedule_dry_run_witness :
  outcome (get_default_branch workspace (remote quiet) "svc-a" 0%nat)
  = Ok (Some "main")
  /\ outcome (get_schedules workspace (remote quiet) "svc-a" 0%nat)
     = Ok (Some [])
  /\ In (eligible_for_deletion "svc-a")
       (events (delete_schedule cron workspace (remote quiet) "svc-a" true
                  0%nat)).
Proof.
  assert (Hdb :
    outcome (get_default_branch workspace (remote quiet) "svc-a" 0%nat)
    = Ok (Some "main")) by (vm_compute; reflexivity).
  assert (Hl :
    outcome (get_schedules workspace (remote quiet) "svc-a"
               (final (get_default_branch workspace (remote quiet) "svc-a"
                         0%nat)))
    = Ok (Some [])) by (vm_compute; reflexivity).
  split; [exact Hdb |]. split; [vm_compute; reflexivity |].
  exact (proj1 (proj2
           (proj2 (delete_schedule_dry_run cron workspace (remote quiet)
                     "svc-a" 0%nat)
              (Some "main") [] Hdb Hl))).
Defined.

Lemma delete_schedule_without_list_witness :
  outcome (get_schedules workspace (remote unlisted_schedules) "svc-a"
             0%nat) = Ok None
  /\ In (Log ERROR "Failed to delete scheduled pipeline.")
       (events (delete_schedule cron workspace (remote unlisted_schedules)
                  "svc-a" false 0%nat)).
Proof.
  assert (Hdb :
    outcome (get_default_branch workspace (remote unlisted_schedules)
               "svc-a" 0%nat) = Ok (Some "main"))
    by (vm_compute; reflexivity).
  assert (Hl :
    outcome (get_schedules workspace (remote unlisted_schedules) "svc-a"
               (final (get_default_branch workspace
                         (remote unlisted_schedules) "svc-a" 0%nat)))
    = Ok None) by (vm_compute; reflexivity).
  split; [vm_compute; reflexivity |].
  exact (proj1 (proj2 (proj2
           (delete_schedule_without_list cron workspace
              (remote unlisted_schedules) "svc-a" false 0%nat (Some "main")
              Hdb Hl)))).
Defined.

Lemma delete_schedule_deleted_log_witness :
  outcome (get_default_branch workspace (remote busy) "svc-a" 0%nat)
  = Ok (Some "master")
  /\ In (deleted_log "svc-a")
       (events (delete_schedule cron workspace (remote busy) "svc-a" false
                  0%nat)).
Proof.
  assert (Hdb :
    outcome (get_default_branch workspace (remote busy) "svc-a" 0%nat)
    = Ok (Some "master")) by (vm_compute; reflexivity).
  assert (Hl :
    outcome (get_schedules workspace (remote busy) "svc-a"
               (final (get_default_branch workspace (remote busy) "svc-a"
                         0%nat)))
    = Ok (Some [weekly "develop" "{0a}"; weekly "master" "{1b}";
                weekly "master" "{2c}"])) by (vm_compute; reflexivity).
  split; [exact Hdb |].
  apply (proj2 (delete_schedule_deleted_log cron workspace (remote busy)
                  "svc-a" 0%nat (Some "master") _ Hdb Hl)).
  vm_compute. reflexivity.
Defined.


Lemma create_schedule_posts_witness :
  outcome (get_default_branch workspace (remote quiet) "svc-b" 0%nat)
  = Ok (Some "main")
  /\ mutations (events (create_schedule cron workspace (remote quiet)
                          "svc-b" false 0%nat))
     = [post_request workspace "svc-b"].
Proof.
  assert (Hdb :
    outcome (get_default_branch workspace (remote quiet) "svc-b" 0%nat)
    = Ok (Some "main")) by (vm_compute; reflexivity).
  assert (Hl :
    outcome (get_schedules workspace (remote quiet) "svc-b"
               (final (get_default_branch workspace (remote quiet) "svc-b"
                         0%nat)))
    = Ok (Some [])) by (vm_compute; reflexivity).
  split; [exact Hdb |].
  exact (proj1 (proj2
           (create_schedule_posts cron workspace (remote quiet) "svc-b"
              0%nat (Some "main") [] Hdb Hl eq_refl))).
Defined.

Lemma create_schedule_absent_default_branch_witness :
  outcome (get_default_branch workspace (remote unresolved_branch) "svc-b"
             0%nat) = Ok None
  /\ mutations (events (create_schedule cron workspace
                          (remote unresolved_branch) "svc-b" false 0%nat))
     = [post_request workspace "svc-b"].
Proof.
  assert (Hdb :
    outcome (get_default_branch workspace (remote unresolved_branch)
               "svc-b" 0%nat) = Ok None) by (vm_compute; reflexivity).
  assert (Hl :
    outcome (get_schedules workspace (remote unresolved_branch) "svc-b"
               (final (get_default_branch workspace
                         (remote unresolved_branch) "svc-b" 0%nat)))
    = Ok (Some [weekly "main" "{7d1f}"])) by (vm_compute; reflexivity).
  split; [exact Hdb |].
  exact (proj1 (proj2
           (create_schedule_absent_default_branch cron workspace
              (remote unresolved_branch) "svc-b" 0%nat _ Hdb Hl))).
Defined.

Lemma process_services_loop_all_overridden_witness :
  Forall (fun service => excluded literal (Some ["svc-"]) service = Ok true)
         ["svc-a"; "svc-b"]
  /\ requests (events (process_services_loop cron workspace (remote busy)
                         literal (Some ["svc-"]) false false
                         ["svc-a"; "svc-b"] 0%nat)) = [].
Proof.
  assert (Hall : Forall (fun service =>
                           excluded literal (Some ["svc-"]) service = Ok true)
                   ["svc-a"; "svc-b"])
    by (repeat constructor; vm_compute; reflexivity).
  split; [exact Hall |].
  exact (proj1 (proj2 (proj2
           (process_services_loop_all_overridden cron workspace
              (remote busy) literal (Some ["svc-"]) false false
              ["svc-a"; "svc-b"] 0%nat Hall)))).
Defined.

Lemma process_services_loop_aborts_witness :
  outcome (process_services_loop cron workspace (remote unlisted_schedules)
             literal None false false ([] ++ ["svc-b"]) 0%nat)
  = Raise TypeError
  /\ process_services_loop cron workspace (remote unlisted_schedules)
       literal None false false ([] ++ "svc-b" :: ["svc-c"; "svc-d"]) 0%nat
     = process_services_loop cron workspace (remote unlisted_schedules)
         literal None false false ([] ++ ["svc-b"]) 0%nat.
Proof.
  assert (H : outcome (process_services_loop cron workspace
                         (remote unlisted_schedules) literal None false false
                         ([] ++ ["svc-b"]) 0%nat) = Raise TypeError)
    by (vm_compute; reflexivity).
  split; [exact H |].
  exact (process_services_loop_aborts cron workspace
           (remote unlisted_schedules) literal None false false []
           "svc-b" ["svc-c"; "svc-d"] TypeError 0%nat H).
Defined.

Lemma process_services_catalog_error_witness :
  truthy (@None (list string)) = false
  /\ list_service_definitions (remote catalog_down) 0 0%nat
     = (CatalogErrors "Forbidden", 0%nat)
  /\ outcome (process_services cron workspace (remote catalog_down) literal
                3 None None false false 0%nat) = Ok tt.
Proof.
  split; [reflexivity |]. split; [reflexivity |].
  rewrite (process_services_catalog_error cron workspace
             (remote catalog_down) literal 2 None None false false
             0%nat 0%nat "Forbidden" eq_refl eq_refl).
  reflexivity.
Defined.

Lemma get_active_services_malformed_entry_witness :
  existsb malformed
    [mkService ["https://bitbucket.org/acme/svc-a"];
     mkService ["https://example.org/docs"]] = true
  /\ outcome (get_active_services (remote catalog_without_link) 3 0%nat)
     = Raise IndexError.
Proof.
  assert (Hbad : existsb malformed
                   [mkService ["https://bitbucket.org/acme/svc-a"];
                    mkService ["https://example.org/docs"]] = true)
    by (vm_compute; reflexivity).
  split; [exact Hbad |].
  rewrite (get_active_services_malformed_entry
             (remote catalog_without_link) 2 0%nat 0%nat _ eq_refl Hbad).
  reflexivity.
Defined.

Lemma get_active_services_needs_empty_page_witness :
  (forall (page : nat) (s : state (remote endless)),
      exists sv data s',
        list_service_definitions (remote endless) page s
        = (CatalogData (sv :: data), s')
        /\ existsb malformed (sv :: data) = false)
  /\ outcome (get_active_services (remote endless) 100 0%nat) = OutOfFuel.
Proof.
  assert (Hcat : forall (page : nat) (s : state (remote endless)),
             exists sv data s',
               list_service_definitions (remote endless) page s
               = (CatalogData (sv :: data), s')
               /\ existsb malformed (sv :: data) = false).
  { intros page s.
    exists (mkService ["https://bitbucket.org/acme/svc-a"]), [], s.
    split; [reflexivity | vm_compute; reflexivity]. }
  split; [exact Hcat |].
  exact (get_active_services_needs_empty_page (remote endless) Hcat 100
           0%nat).
Defined.

Lemma url_component_4_bitbucket_witness :
  no_slash "acme" = true
  /\ no_slash "svc-a" = true
  /\ url_component_4
       (mkService ["https://docs.example.org";
                   "https://bitbucket.org/acme/svc-a/src/main"])
     = Ok "svc-a".
Proof.
  split; [reflexivity |]. split; [reflexivity |].
  exact (url_component_4_bitbucket ["https://docs.example.org"] "acme"
           "svc-a" (Some "src/main") eq_refl eq_refl).
Defined.

Lemma lambda_handler_contract_witness :
  event_dry_run (mkInvocation (Some ["svc-a"]) None (Some true) None None)
  = Some true
  /\ mutations
       (events (lambda_handler cron workspace (remote busy) literal 3
                  (mkInvocation (Some ["svc-a"]) None (Some true) None None)
                  0%nat)) = [].
Proof.
  split; [reflexivity |].
  exact (proj2 (proj2 (proj2 (proj2
           (lambda_handler_contract cron workspace (remote busy) literal 3
              (mkInvocation (Some ["svc-a"]) None (Some true) None None)
              0%nat)))) eq_refl).
Defined.
End MoreScenarios.
